(** * Dump-file validation: the rule engine and the boundary comparator

    A shallow embedding of [DumpFileValidator] (src/app.py): the two rule
    sets [validate_daily_file] and [validate_full_file], the identifier
    detection [check_id_column] and the boundary comparison
    [compare_validation_files], over a small model of the pandas objects they
    handle.  Python exceptions are explicit: every operation that can raise
    lives in the [result] monad. *)

From Stdlib Require Import String Ascii DecimalString ZArith Bool List Lia.
Import ListNotations.

Local Open Scope Z_scope.
Local Open Scope list_scope.

(** ** Python runtime *)

Module Py.

(** The exceptions the modelled code can raise. *)
Inductive exn : Type :=
| TypeError
| IndexError
| UnboundLocalError.

(** A Python computation either returns a value or raises. *)
Inductive result (A : Type) : Type :=
| Return (a : A)
| Raise (e : exn).
Arguments Return {A} a.
Arguments Raise {A} e.

Definition bind {A B : Type} (m : result A) (k : A -> result B) : result B :=
  match m with
  | Return a => k a
  | Raise e => Raise e
  end.

(** A local variable slot: [None] until the first assignment.  Reading an
    unassigned local raises [UnboundLocalError]. *)
Definition load {A : Type} (slot : option A) : result A :=
  match slot with
  | Some v => Return v
  | None => Raise UnboundLocalError
  end.

(** [print(...)]: the arguments are evaluated, the text goes to stdout,
    which is not part of any returned value. *)
Definition print {A : Type} (_ : A) : result unit := Return tt.

(** [if c: body] for a body with effects only. *)
Definition when (c : bool) (body : result unit) : result unit :=
  if c then body else Return tt.

(** [f"{n}"] for a length and for an integer. *)
Definition str_of_nat (n : nat) : string :=
  NilEmpty.string_of_uint (Nat.to_uint n).

Definition str_of_Z (z : Z) : string :=
  NilZero.string_of_int (Z.to_int z).

(** [s.startswith(p)] and [s.endswith(p)]. *)
Fixpoint prefixb (p l : list ascii) : bool :=
  match p, l with
  | [], _ => true
  | _ :: _, [] => false
  | a :: p', b :: l' => Ascii.eqb a b && prefixb p' l'
  end.

Definition startswith (p s : string) : bool :=
  prefixb (list_ascii_of_string p) (list_ascii_of_string s).

Definition endswith (p s : string) : bool :=
  prefixb (rev (list_ascii_of_string p)) (rev (list_ascii_of_string s)).

End Py.

Import Py.

Declare Scope py_scope.
Delimit Scope py_scope with py.
Notation "x <- m ;; k" := (bind m (fun x => k))
  (at level 61, m at next level, right associativity) : py_scope.
Notation "m ;;; k" := (bind m (fun _ => k))
  (at level 61, right associativity) : py_scope.
Local Open Scope py_scope.

(** ** The pandas objects the validator touches *)

Module Pandas.

(** A cell of a loaded CSV table: an integer field (of a magnitude that a
    float64 column holds exactly), a text field, a missing field, and, in a
    column that went through [pd.to_datetime(..., utc=True)], a UTC timestamp
    (nanoseconds since the epoch) or [NaT]. *)
Inductive cell : Type :=
| Int (z : Z)
| Str (s : string)
| NaN
| Timestamp (ns : Z)
| NaT.

(** Element equality as [Series.equals] sees it: missing values in the same
    place count as equal. *)
Definition cell_eqb (a b : cell) : bool :=
  match a, b with
  | Int x, Int y => Z.eqb x y
  | Str s, Str t => String.eqb s t
  | NaN, NaN => true
  | Timestamp x, Timestamp y => Z.eqb x y
  | NaT, NaT => true
  | _, _ => false
  end.

(** The type of a column, and of a row taken across columns. *)
Inductive dtype : Type :=
| Int64
| Float64
| Datetime
| Object.

Definition dtype_eqb (a b : dtype) : bool :=
  match a, b with
  | Int64, Int64 | Float64, Float64 | Datetime, Datetime | Object, Object => true
  | _, _ => false
  end.

Definition is_int (c : cell) : bool :=
  match c with
  | Int _ => true
  | _ => false
  end.

Definition is_numeric (c : cell) : bool :=
  match c with
  | Int _ | NaN => true
  | _ => false
  end.

(** The orchestrator's date parsing ([pd.to_datetime(..., utc=True)] on each
    date column that is present) leaves only timestamps and [NaT] there. *)
Definition is_datetime (c : cell) : bool :=
  match c with
  | Timestamp _ | NaT => true
  | _ => false
  end.

(** The type pandas gives a column: integers alone are int64, integers with
    missing fields (or missing fields alone) float64, a parsed date column
    datetime64[ns, UTC], anything else, a column without cells included,
    object. *)
Definition column_dtype (col : list cell) : dtype :=
  match col with
  | [] => Object
  | _ :: _ =>
      if forallb is_int col then Int64
      else if forallb is_numeric col then Float64
      else if forallb is_datetime col then Datetime
      else Object
  end.

(** The type that holds the values of two columns side by side. *)
Definition common_dtype (a b : dtype) : dtype :=
  match a, b with
  | Int64, Int64 => Int64
  | Int64, Float64 | Float64, Int64 | Float64, Float64 => Float64
  | Datetime, Datetime => Datetime
  | _, _ => Object
  end.

(** A row taken out of a frame: labels, type and values. *)
Record Series : Type := mkSeries {
  index : list string;
  dtype_of : dtype;
  values : list cell
}.

(** A frame: the header and the data rows in file order. *)
Record DataFrame : Type := mkDataFrame {
  columns : list string;
  rows : list (list cell)
}.

(** [len(df)], [len(df.index)] *)
Definition len (df : DataFrame) : nat := length (rows df).

(** [name in df.columns] *)
Definition has_column (name : string) (df : DataFrame) : bool :=
  existsb (String.eqb name) (columns df).

Fixpoint position (name : string) (cols : list string) : nat :=
  match cols with
  | [] => O
  | c :: cols' => if String.eqb name c then O else S (position name cols')
  end.

(** The field of a row under a label; [read_csv] pads short rows with NaN. *)
Definition field (cols : list string) (name : string) (row : list cell) : cell :=
  nth (position name cols) row NaN.

(** [df[name]] for a present column, as the list of its cells. *)
Definition getitem (df : DataFrame) (name : string) : list cell :=
  map (field (columns df) name) (rows df).

(** The cells under the [j]-th label. *)
Definition column_at (df : DataFrame) (j : nat) : list cell :=
  map (fun row => nth j row NaN) (rows df).

(** The type of every row of a frame: the common type of its columns, which
    each depend on all the rows. *)
Definition row_dtype (df : DataFrame) : dtype :=
  match map (fun j => column_dtype (column_at df j)) (seq 0 (length (columns df))) with
  | [] => Object
  | d :: ds => fold_left common_dtype ds d
  end.

(** A row of a frame under its header, one cell per column. *)
Definition series_of_row (df : DataFrame) (row : list cell) : Series :=
  mkSeries (columns df) (row_dtype df)
           (map (fun j => nth j row NaN) (seq 0 (length (columns df)))).

(** [df.iloc[i]]: Python indexing, negative positions count from the end,
    a position outside the frame raises [IndexError]. *)
Definition iloc (df : DataFrame) (i : Z) : result Series :=
  let n := Z.of_nat (len df) in
  let j := if i <? 0 then i + n else i in
  if (j <? 0) || (n <=? j) then Raise IndexError
  else match nth_error (rows df) (Z.to_nat j) with
       | Some row => Return (series_of_row df row)
       | None => Raise IndexError
       end.

Fixpoint list_eqb {A : Type} (eqb : A -> A -> bool) (l1 l2 : list A) : bool :=
  match l1, l2 with
  | [], [] => true
  | a :: l1', b :: l2' => eqb a b && list_eqb eqb l1' l2'
  | _, _ => false
  end.

(** Two rows with the same labels and the same values, whatever their type. *)
Definition same_values (s1 s2 : Series) : bool :=
  list_eqb String.eqb (index s1) (index s2)
  && list_eqb cell_eqb (values s1) (values s2).

(** [s1.equals(s2)]: same labels, same type, same values. *)
Definition equals (s1 s2 : Series) : bool :=
  dtype_eqb (dtype_of s1) (dtype_of s2) && same_values s1 s2.

(** [col != k] for an integer [k], element by element; a cell that is not
    that integer differs from it, whatever its type. *)
Definition ne_int (k : Z) (c : cell) : bool :=
  match c with
  | Int z => negb (Z.eqb z k)
  | _ => true
  end.

Definition series_ne_int (col : list cell) (k : Z) : list bool :=
  map (ne_int k) col.

(** One element against a timezone-aware timestamp: a timestamp is compared,
    a missing value compares false, an integer or a text cannot be compared
    and raises [TypeError]. *)
Definition cmp_ts (op : Z -> Z -> bool) (ts : Z) (c : cell) : result bool :=
  match c with
  | Timestamp ns => Return (op ns ts)
  | NaT | NaN => Return false
  | Int _ | Str _ => Raise TypeError
  end.

Fixpoint cmp_elements (op : Z -> Z -> bool) (col : list cell) (ts : Z)
  : result (list bool) :=
  match col with
  | [] => Return []
  | c :: col' =>
      b <- cmp_ts op ts c ;;
      bs <- cmp_elements op col' ts ;;
      Return (b :: bs)
  end.

(** [col >= ts] and [col < ts]: a numeric column is refused as a whole with
    [TypeError]; a datetime or an object column is compared element by
    element. *)
Definition series_cmp_ts (op : Z -> Z -> bool) (col : list cell) (ts : Z)
  : result (list bool) :=
  match column_dtype col with
  | Int64 | Float64 => Raise TypeError
  | Datetime | Object => cmp_elements op col ts
  end.

Definition series_ge (col : list cell) (ts : Z) := series_cmp_ts Z.geb col ts.
Definition series_lt (col : list cell) (ts : Z) := series_cmp_ts Z.ltb col ts.

(** Boolean masks: [m1 & m2], [m1 | m2], [~m]. *)
Definition mask_and (m1 m2 : list bool) : list bool :=
  map (fun p => fst p && snd p) (combine m1 m2).
Definition mask_or (m1 m2 : list bool) : list bool :=
  map (fun p => fst p || snd p) (combine m1 m2).
Definition mask_not (m : list bool) : list bool := map negb m.

(** [df[mask]]: the rows whose mask entry is true, same header. *)
Definition select (df : DataFrame) (mask : list bool) : DataFrame :=
  mkDataFrame (columns df)
              (map snd (filter (fun p => fst p) (combine mask (rows df)))).

(** [df.empty]: some axis has length zero. *)
Definition empty (df : DataFrame) : bool :=
  (length (rows df) =? 0)%nat || (length (columns df) =? 0)%nat.

End Pandas.

Import Pandas.

(** ** The validator *)

(** [DumpFileValidator]: the fields set by [__init__].  Timestamps are
    nanoseconds since the epoch, UTC. *)
Record DumpFileValidator : Type := mkValidator {
  window_start : Z;
  window_end : Z;
  yyyymmdd : string;
  database_names : list string;
  environment : list string;
  etl_mode : list (string * string)
}.

(** [__init__]: the window is 2024-12-02 19:00 UTC to 2024-12-03 19:00 UTC. *)
Definition init : DumpFileValidator :=
  mkValidator 1733166000000000000 1733252400000000000
              "20241204"
              ["online"%string; "offline"%string]
              ["PRD"%string; "QA"%string; "DEV"%string]
              [("delta"%string, "daily"%string); ("full"%string, "full"%string)].

(** A row of the manifest, with the columns [check_manifest_headers] asks for. *)
Record ManifestRow : Type := mkManifestRow {
  table_name : string;
  row_count : Z;
  time_start : string;
  time_end : string
}.

(** The texts of the defects. *)
Definition row_count_message (expected : Z) (got : nat) : string :=
  ("Row count mismatch: expected " ++ str_of_Z expected ++ ", got " ++ str_of_nat got)%string.

Definition no_id_message : string := "No valid ID column found".

Definition daily_created_message (n : nat) : string :=
  ("Found " ++ str_of_nat n ++ " invalid IsCreated values")%string.

Definition daily_modified_message (n : nat) : string :=
  ("Found " ++ str_of_nat n ++ " invalid IsModified values")%string.

Definition window_message (n : nat) : string :=
  ("Found " ++ str_of_nat n ++ " records outside time window")%string.

Definition full_created_message (n : nat) : string :=
  ("Found " ++ str_of_nat n ++ " rows with IsCreated != 1")%string.

Definition full_modified_message (n : nat) : string :=
  ("Found " ++ str_of_nat n ++ " rows with IsModified != 0")%string.

(** [check_id_column] *)
Definition id_columns : list string :=
  ["ID"%string; "Id"%string; "DataID"%string; "ProductOptionDataID"%string].

Definition check_id_column (df : DataFrame) : bool * option string :=
  let found_cols := filter (fun col => has_column col df) id_columns in
  ((0 <? length found_cols)%nat,
   match found_cols with
   | col :: _ => Some col
   | [] => None
   end).

(** [validate_daily_file] *)
Definition validate_daily_file (self : DumpFileValidator)
    (raw_df : DataFrame) (metadata_row : ManifestRow)
  : result (bool * list string) :=
  let validation_results : list string := [] in
  (* 4a *)
  let validation_results :=
    if negb (Z.of_nat (len raw_df) =? row_count metadata_row)
    then validation_results ++ [row_count_message (row_count metadata_row) (len raw_df)]
    else validation_results in
  (* 4b *)
  let '(has_id, id_col) := check_id_column raw_df in
  let validation_results :=
    if negb has_id then validation_results ++ [no_id_message]
    else validation_results in
  (* 4c *)
  validation_results <-
    (if has_column "IsCreated" raw_df && has_column "DateCreated" raw_df then
       created_mask <- series_ge (getitem raw_df "DateCreated") (window_start self) ;;
       let invalid_created :=
         select raw_df
           (mask_and created_mask (series_ne_int (getitem raw_df "IsCreated") 1)) in
       Return (if negb (empty invalid_created)
               then validation_results ++ [daily_created_message (len invalid_created)]
               else validation_results)
     else Return validation_results) ;;
  (* 4d *)
  validation_results <-
    (if has_column "IsModified" raw_df && has_column "DateModified" raw_df then
       modified_mask <- series_ge (getitem raw_df "DateModified") (window_start self) ;;
       let invalid_modified :=
         select raw_df
           (mask_and modified_mask (series_ne_int (getitem raw_df "IsModified") 1)) in
       Return (if negb (empty invalid_modified)
               then validation_results ++ [daily_modified_message (len invalid_modified)]
               else validation_results)
     else Return validation_results) ;;
  (* 4e *)
  validation_results <-
    (if has_column "DateCreated" raw_df && has_column "DateModified" raw_df then
       c_ge <- series_ge (getitem raw_df "DateCreated") (window_start self) ;;
       c_lt <- series_lt (getitem raw_df "DateCreated") (window_end self) ;;
       m_ge <- series_ge (getitem raw_df "DateModified") (window_start self) ;;
       m_lt <- series_lt (getitem raw_df "DateModified") (window_end self) ;;
       let date_criteria := mask_or (mask_and c_ge c_lt) (mask_and m_ge m_lt) in
       let invalid_dates := select raw_df (mask_not date_criteria) in
       Return (if negb (empty invalid_dates)
               then validation_results ++ [window_message (len invalid_dates)]
               else validation_results)
     else Return validation_results) ;;
  Return ((length validation_results =? 0)%nat, validation_results).

(** [validate_full_file] *)
Definition validate_full_file (self : DumpFileValidator)
    (raw_df : DataFrame) (metadata_row : ManifestRow)
  : result (bool * list string) :=
  let validation_results : list string := [] in
  (* 4a *)
  let validation_results :=
    if negb (Z.of_nat (len raw_df) =? row_count metadata_row)
    then validation_results ++ [row_count_message (row_count metadata_row) (len raw_df)]
    else validation_results in
  (* 4b *)
  let '(has_id, id_col) := check_id_column raw_df in
  let validation_results :=
    if negb has_id then validation_results ++ [no_id_message]
    else validation_results in
  (* 4c *)
  let validation_results :=
    if has_column "IsCreated" raw_df then
      let invalid_created :=
        select raw_df (series_ne_int (getitem raw_df "IsCreated") 1) in
      if negb (empty invalid_created)
      then validation_results ++ [full_created_message (len invalid_created)]
      else validation_results
    else validation_results in
  (* 4d *)
  let validation_results :=
    if has_column "IsModified" raw_df then
      let invalid_modified :=
        select raw_df (series_ne_int (getitem raw_df "IsModified") 0) in
      if negb (empty invalid_modified)
      then validation_results ++ [full_modified_message (len invalid_modified)]
      else validation_results
    else validation_results in
  Return ((length validation_results =? 0)%nat, validation_results).

(** The two modes, and the dispatch [process_files] makes on them. *)
Inductive Mode : Type := Daily | Full.

Definition evaluate (self : DumpFileValidator) (raw_df : DataFrame)
    (metadata_row : ManifestRow) (mode : Mode) : result (bool * list string) :=
  match mode with
  | Daily => validate_daily_file self raw_df metadata_row
  | Full => validate_full_file self raw_df metadata_row
  end.

(** [compare_validation_files].  The local [single_row_match] is assigned in
    the one-row branch only, which returns; on every other path its slot is
    still empty when the debugging block reads it. *)
Definition compare_validation_files (self : DumpFileValidator)
    (raw_df validation_df : DataFrame) : result (bool * string) :=
  if (len validation_df =? 0)%nat then
    Return (true, "Validation file is empty, no changes made"%string)
  else
    let single_row_match : option bool := None in
    if (len raw_df =? 1)%nat && (len validation_df =? 1)%nat then
      r <- iloc raw_df 0 ;;
      v <- iloc validation_df 0 ;;
      let single_row_match := Some (equals r v) in
      m <- load single_row_match ;;
      if m then Return (true, "Validation check passed"%string)
      else Return (false, "Validation and raw row mismatch"%string)
    else if negb (len validation_df =? 2)%nat then
      Return (false,
              ("Validation file should contain exactly 2 data rows (first and last), found "
               ++ str_of_nat (len validation_df) ++ " rows")%string)
    else
      r0 <- iloc raw_df 0 ;;
      v1 <- iloc validation_df 1 ;;
      let first_row_match := equals r0 v1 in
      rl <- iloc raw_df (-1) ;;
      v0 <- iloc validation_df 0 ;;
      let last_row_match := equals rl v0 in
      if negb (first_row_match || last_row_match) then
        when (negb first_row_match)
             (a <- iloc raw_df 0 ;; print a ;;;
              b <- iloc validation_df 0 ;; print b) ;;;
        when (negb last_row_match)
             (a <- iloc raw_df (-1) ;; print a ;;;
              b <- iloc validation_df 1 ;; print b) ;;;
        m <- load single_row_match ;;
        when (negb m)
             (a <- iloc raw_df 0 ;; print a ;;;
              b <- iloc validation_df 0 ;; print b) ;;;
        Return (false,
                "First and/or last rows don't match between raw and validation files"%string)
      else
        Return (true, "Validation file check passed"%string).

(** ** What the rules are meant to do

    The definitions below say, row by row, what each rule of section 4.1 of
    the specification counts.  They are compared with the code further down. *)

(** A frame whose date columns, where present, are parsed. *)
Definition dates_parsed (df : DataFrame) : bool :=
  forallb (fun name => negb (has_column name df)
                       || forallb is_datetime (getitem df name))
          ["DateCreated"%string; "DateModified"%string].

(** The input [evaluate] is specified on. *)
Definition well_typed (mode : Mode) (df : DataFrame) : bool :=
  match mode with
  | Daily => dates_parsed df
  | Full => true
  end.

(** [ts <= c] and [c < ts] for a date cell; a missing date satisfies neither. *)
Definition at_or_after (ts : Z) (c : cell) : bool :=
  match c with
  | Timestamp ns => ts <=? ns
  | _ => false
  end.

Definition before (ts : Z) (c : cell) : bool :=
  match c with
  | Timestamp ns => ns <? ts
  | _ => false
  end.

(** [window.start <= c < window.end] *)
Definition in_window (self : DumpFileValidator) (c : cell) : bool :=
  at_or_after (window_start self) c && before (window_end self) c.

(** A record violating rule 3, rule 4 and rule 5 of daily mode. *)
Definition created_violation (self : DumpFileValidator) (cols : list string)
    (row : list cell) : bool :=
  at_or_after (window_start self) (field cols "DateCreated" row)
  && ne_int 1 (field cols "IsCreated" row).

Definition modified_violation (self : DumpFileValidator) (cols : list string)
    (row : list cell) : bool :=
  at_or_after (window_start self) (field cols "DateModified" row)
  && ne_int 1 (field cols "IsModified" row).

Definition outside_window (self : DumpFileValidator) (cols : list string)
    (row : list cell) : bool :=
  negb (in_window self (field cols "DateCreated" row)
        || in_window self (field cols "DateModified" row)).

(** A record violating rule 3' and rule 4' of full mode. *)
Definition not_created (cols : list string) (row : list cell) : bool :=
  ne_int 1 (field cols "IsCreated" row).

Definition is_modified (cols : list string) (row : list cell) : bool :=
  ne_int 0 (field cols "IsModified" row).

(** The number of records of a frame that violate a rule. *)
Definition violations (p : list string -> list cell -> bool) (df : DataFrame) : nat :=
  length (filter (p (columns df)) (rows df)).

(** One aggregated defect for a positive count, none for zero. *)
Definition aggregated (message : nat -> string) (n : nat) : list string :=
  if (n =? 0)%nat then [] else [message n].

(** The defects each rule contributes. *)
Definition rule_row_count (raw : DataFrame) (m : ManifestRow) : list string :=
  if Z.of_nat (len raw) =? row_count m then []
  else [row_count_message (row_count m) (len raw)].

Definition rule_id (raw : DataFrame) : list string :=
  if existsb (fun name => has_column name raw) id_columns then []
  else [no_id_message].

Definition rule_daily_created (self : DumpFileValidator) (raw : DataFrame) : list string :=
  if has_column "IsCreated" raw && has_column "DateCreated" raw
  then aggregated daily_created_message (violations (created_violation self) raw)
  else [].

Definition rule_daily_modified (self : DumpFileValidator) (raw : DataFrame) : list string :=
  if has_column "IsModified" raw && has_column "DateModified" raw
  then aggregated daily_modified_message (violations (modified_violation self) raw)
  else [].

Definition rule_window (self : DumpFileValidator) (raw : DataFrame) : list string :=
  if has_column "DateCreated" raw && has_column "DateModified" raw
  then aggregated window_message (violations (outside_window self) raw)
  else [].

Definition rule_full_created (raw : DataFrame) : list string :=
  if has_column "IsCreated" raw
  then aggregated full_created_message (violations not_created raw)
  else [].

Definition rule_full_modified (raw : DataFrame) : list string :=
  if has_column "IsModified" raw
  then aggregated full_modified_message (violations is_modified raw)
  else [].

(** The rules of a mode that come after the two common ones, in order. *)
Definition mode_rules (self : DumpFileValidator) (raw : DataFrame) (mode : Mode)
  : list string :=
  match mode with
  | Daily => rule_daily_created self raw ++ rule_daily_modified self raw
             ++ rule_window self raw
  | Full => rule_full_created raw ++ rule_full_modified raw
  end.

(** The messages [evaluate] returns on well-typed input: the contributions of
    the rules, in the order of the code. *)
Definition defects (self : DumpFileValidator) (raw : DataFrame) (m : ManifestRow)
    (mode : Mode) : list string :=
  rule_row_count raw m ++ rule_id raw ++ mode_rules self raw mode.

(** Recognising the kind of a defect from its text. *)
Definition is_row_count_defect (d : string) : bool :=
  startswith "Row count mismatch: expected " d.

Definition is_no_id_defect (d : string) : bool :=
  String.eqb d no_id_message.

Definition is_daily_created_defect (d : string) : bool :=
  startswith "Found " d && endswith " invalid IsCreated values" d.

Definition is_window_defect (d : string) : bool :=
  startswith "Found " d && endswith " records outside time window" d.

Definition is_full_created_defect (d : string) : bool :=
  startswith "Found " d && endswith " rows with IsCreated != 1" d.

Definition is_full_modified_defect (d : string) : bool :=
  startswith "Found " d && endswith " rows with IsModified != 0" d.

(** The two pairings of the two-row branch of the comparator. *)
Definition first_pairing (raw validation : DataFrame) : bool :=
  match iloc raw 0, iloc validation 1 with
  | Return r, Return v => equals r v
  | _, _ => false
  end.

Definition last_pairing (raw validation : DataFrame) : bool :=
  match iloc raw (-1), iloc validation 0 with
  | Return r, Return v => equals r v
  | _, _ => false
  end.

Definition passed : bool * string := (true, "Validation file check passed"%string).

Definition no_match : bool * string :=
  (false, "First and/or last rows don't match between raw and validation files"%string).

(** Two lists of characters that differ at a position both have. *)
Fixpoint clash (l1 l2 : list ascii) : bool :=
  match l1, l2 with
  | a :: l1', b :: l2' => if Ascii.eqb a b then clash l1' l2' else true
  | _, _ => false
  end.

(** ** The rest of the validator *)



(** A cell that a comparison with a timestamp accepts. *)
Definition timestamp_or_missing (c : cell) : bool :=
  match c with
  | Timestamp _ | NaT | NaN => true
  | Int _ | Str _ => false
  end.

(** A column that can be compared with a timestamp: it holds no integer and
    no text and, unless it has no cell at all, it does not consist of
    missing values NaN alone. *)
Definition column_comparable (col : list cell) : bool :=
  forallb timestamp_or_missing col
  && match col with
     | [] => true
     | _ :: _ => existsb is_datetime col
     end.

(** The frames on which daily mode returns: every date column that one of
    its steps compares is comparable. *)
Definition daily_comparable (raw : DataFrame) : bool :=
  (negb (has_column "IsCreated" raw && has_column "DateCreated" raw)
   || column_comparable (getitem raw "DateCreated"))
  && (negb (has_column "IsModified" raw && has_column "DateModified" raw)
      || column_comparable (getitem raw "DateModified"))
  && (negb (has_column "DateCreated" raw && has_column "DateModified" raw)
      || (column_comparable (getitem raw "DateCreated")
          && column_comparable (getitem raw "DateModified"))).

(** A parsed date column. *)
Definition column_parsed (name : string) (df : DataFrame) : bool :=
  forallb is_datetime (getitem df name).

(** Daily mode compares [DateCreated] in steps 4c and 4e and [DateModified]
    in steps 4d and 4e, each step behind its own gate.  [daily_typed] holds
    when every column that a step compares is parsed. *)
Definition daily_typed (raw : DataFrame) : bool :=
  (negb (has_column "IsCreated" raw && has_column "DateCreated" raw)
   || column_parsed "DateCreated" raw)
  && (negb (has_column "IsModified" raw && has_column "DateModified" raw)
      || column_parsed "DateModified" raw)
  && (negb (has_column "DateCreated" raw && has_column "DateModified" raw)
      || (column_parsed "DateCreated" raw && column_parsed "DateModified" raw)).

Definition is_daily_modified_defect (d : string) : bool :=
  startswith "Found " d && endswith " invalid IsModified values" d.

(** The pairing of the one-row branch of the comparator. *)
Definition single_pairing (raw validation : DataFrame) : bool :=
  match iloc raw 0, iloc validation 0 with
  | Return r, Return v => equals r v
  | _, _ => false
  end.

Definition wrong_count_message (n : nat) : string :=
  ("Validation file should contain exactly 2 data rows (first and last), found "
   ++ str_of_nat n ++ " rows")%string.

(** ** The raw stage of [process_files]

    The part of the orchestrator that stands between a loaded table and the
    rule engine (lines 169 to 180).  [pd.to_datetime] is a parameter: given a
    column it answers with a column or raises, which [None] stands for. *)

(** A row with the cell at a position replaced; a short row is padded with
    NaN up to that position, as [field] reads it. *)
Fixpoint set_nth (i : nat) (v : cell) (row : list cell) : list cell :=
  match i, row with
  | O, [] => [v]
  | O, _ :: rest => v :: rest
  | S i', [] => NaN :: set_nth i' v []
  | S i', c :: rest => c :: set_nth i' v rest
  end.

(** [df[name] = col] for a column that is present and a [col] computed from
    [df[name]], hence on the same index: the cells of that column are
    replaced, row by row. *)
Definition setitem (df : DataFrame) (name : string) (col : list cell) : DataFrame :=
  mkDataFrame (columns df)
    (map (fun p => set_nth (position name (columns df)) (snd p) (fst p))
         (combine (rows df) col)).

Definition date_columns : list string :=
  ["DateCreated"%string; "DateModified"%string].

(** One turn of the loop of lines 172 to 174. *)
Definition parse_column (to_datetime : list cell -> option (list cell))
    (df : DataFrame) (col : string) : option DataFrame :=
  if has_column col df then
    match to_datetime (getitem df col) with
    | Some parsed => Some (setitem df col parsed)
    | None => None
    end
  else Some df.

(** The loop: the date columns in order, stopping at the first exception. *)
Definition parse_dates (to_datetime : list cell -> option (list cell))
    (df : DataFrame) : option DataFrame :=
  fold_left (fun acc col =>
               match acc with
               | Some d => parse_column to_datetime d col
               | None => None
               end)
            date_columns (Some df).

(** Lines 169 to 180 after [read_csv]: parse the dates, then validate in the
    mode of the run; [None] when an exception leaves for the handler of line
    205. *)
Definition raw_stage (self : DumpFileValidator)
    (to_datetime : list cell -> option (list cell)) (mode : string)
    (raw_df : DataFrame) (row : ManifestRow) : option (bool * list string) :=
  match parse_dates to_datetime raw_df with
  | None => None
  | Some raw_df =>
      match (if String.eqb mode "daily"
             then validate_daily_file self raw_df row
             else validate_full_file self raw_df row) with
      | Return outcome => Some outcome
      | Raise _ => None
      end
  end.

(** What [pd.to_datetime(column, utc=True)] promises when it returns: a
    column on the same index, holding timestamps and NaT only. *)
Definition datetime_contract (to_datetime : list cell -> option (list cell)) : Prop :=
  forall col parsed,
    to_datetime col = Some parsed ->
    length parsed = length col /\ forallb is_datetime parsed = true.

(** A stand-in that keeps timestamps, maps missing cells to NaT and raises on
    anything else. *)
Definition strict_datetime (col : list cell) : option (list cell) :=
  if forallb (fun c => match c with Timestamp _ | NaT | NaN => true | _ => false end) col
  then Some (map (fun c => match c with Timestamp ns => Timestamp ns | _ => NaT end) col)
  else None.

(** A table as loaded, before any date parsing: a missing creation date. *)
Definition orders_loaded : DataFrame :=
  mkDataFrame ["Id"; "IsCreated"; "DateCreated"]%string
    [[Int 1; Int 0; Timestamp (window_start init)];
     [Int 2; Int 1; NaN]].

(** The report of the raw stage (lines 182 to 185): the verdict, then one
    line for each message of a failed validation. *)
Definition raw_report (outcome : bool * list string) : list string :=
  let '(is_valid, messages) := outcome in
  [("Raw file validation: " ++ (if is_valid then "PASSED" else "FAILED"))%string]
  ++ (if negb is_valid
      then map (fun msg => ("- " ++ msg)%string) messages
      else []).

(** Further sample tables. *)
Definition changes : DataFrame :=
  mkDataFrame ["ID"; "IsModified"; "DateModified"]%string
    [[Int 1; Int 0; Timestamp (window_start init)];
     [Int 2; Int 1; Timestamp (window_start init + 1)];
     [Int 3; Int 0; NaT]].

Definition orders_other_ids : DataFrame :=
  mkDataFrame ["Id"; "IsCreated"; "DateCreated"]%string
    [[Int 10; Int 1; NaT];
     [Int 20; Int 1; Str "yesterday"]].

Definition no_orders : DataFrame :=
  mkDataFrame ["Id"; "IsCreated"; "DateCreated"]%string [].

Definition customers_single_other : DataFrame :=
  mkDataFrame ["Id"; "Name"]%string [[Int 3; Str "cy"]].


(** Two integer columns, with and without a missing field. *)
Definition readings : DataFrame :=
  mkDataFrame ["A"; "B"]%string [[Int 1; Int 2]; [Int 3; Int 7]].



Definition readings_last_gap : DataFrame :=
  mkDataFrame ["A"; "B"]%string [[Int 3; Int 7]; [Int 9; NaN]].

(** The customers with one more row in the middle. *)
Definition customers_longer : DataFrame :=
  mkDataFrame ["Id"; "Name"]%string
    [[Int 1; Str "ann"]; [Int 2; Str "bob"]; [Int 5; Str "eve"]; [Int 3; Str "cy"]].

(** Dates left as text, and records at the edges of step 4c. *)
Definition orders_text_dates : DataFrame :=
  mkDataFrame ["Id"; "IsCreated"; "DateCreated"]%string
    [[Int 1; Int 1; Str "2024-12-02 19:00:00"];
     [Int 2; Int 1; Str "2024-12-02 20:00:00"]].

Definition orders_edges : DataFrame :=
  mkDataFrame ["Id"; "IsCreated"; "DateCreated"]%string
    [[Int 1; Int 0; NaT];
     [Int 2; Int 0; Timestamp (window_start init - 1)];
     [Int 3; NaN; Timestamp (window_end init + 5)]].

(** ** Sample tables *)

Definition orders_manifest : ManifestRow :=
  mkManifestRow "orders" 2 "2024-12-02T19:00Z" "2024-12-03T19:00Z".

(** Two records created inside the window, both flagged as created. *)
Definition orders : DataFrame :=
  mkDataFrame ["Id"; "IsCreated"; "DateCreated"]%string
    [[Int 1; Int 1; Timestamp (window_start init)];
     [Int 2; Int 1; Timestamp (window_start init + 3600000000000)]].

(** The same table with the first record, created at the very start of the
    window, not flagged. *)
Definition orders_stale : DataFrame :=
  mkDataFrame ["Id"; "IsCreated"; "DateCreated"]%string
    [[Int 1; Int 0; Timestamp (window_start init)];
     [Int 2; Int 1; Timestamp (window_start init + 3600000000000)]].

(** Both date columns: one record inside the window, one before it, one
    without dates. *)
Definition audit : DataFrame :=
  mkDataFrame ["DataID"; "DateCreated"; "DateModified"]%string
    [[Int 7; Timestamp (window_start init - 1); Timestamp (window_end init - 1)];
     [Int 8; Timestamp (window_start init - 1); Timestamp (window_end init)];
     [Int 9; NaT; NaT]].

(** A table without any identifier column. *)
Definition anonymous : DataFrame :=
  mkDataFrame ["Name"; "IsCreated"]%string [[Str "a"; Int 1]; [Str "b"; Int 1]].

(** Three rows, and validation samples of them. *)
Definition customers : DataFrame :=
  mkDataFrame ["Id"; "Name"]%string
    [[Int 1; Str "ann"]; [Int 2; Str "bob"]; [Int 3; Str "cy"]].

Definition customers_straight : DataFrame :=
  mkDataFrame ["Id"; "Name"]%string [[Int 1; Str "ann"]; [Int 3; Str "cy"]].

Definition customers_last_only : DataFrame :=
  mkDataFrame ["Id"; "Name"]%string [[Int 3; Str "cy"]; [Int 9; Str "zed"]].

Definition customers_single : DataFrame :=
  mkDataFrame ["Id"; "Name"]%string [[Int 1; Str "ann"]].

(** * Proofs *)

(** ** Strings *)

Section Strings.

Lemma list_ascii_of_string_app (a b : string) :
  list_ascii_of_string (a ++ b)
  = list_ascii_of_string a ++ list_ascii_of_string b.
Proof.
  induction a as [|c a IH]; simpl; [reflexivity | now rewrite IH].
Qed.

Lemma prefixb_clash (p x y : list ascii) :
  clash p x = true -> prefixb p (x ++ y) = false.
Proof.
  revert x. induction p as [|a p IH]; intros [|b x]; simpl; try discriminate.
  destruct (Ascii.eqb a b); simpl; auto.
Qed.

Lemma prefixb_self (p y : list ascii) : prefixb p (p ++ y) = true.
Proof.
  induction p as [|a p IH]; simpl; [reflexivity|].
  now rewrite Ascii.eqb_refl.
Qed.

Lemma endswith_clash (p a c : string) :
  clash (rev (list_ascii_of_string p)) (rev (list_ascii_of_string c)) = true ->
  endswith p (a ++ c) = false.
Proof.
  intros H. unfold endswith.
  rewrite list_ascii_of_string_app, rev_app_distr.
  now apply prefixb_clash.
Qed.

Lemma endswith_self (p a : string) : endswith p (a ++ p) = true.
Proof.
  unfold endswith.
  rewrite list_ascii_of_string_app, rev_app_distr.
  apply prefixb_self.
Qed.

Lemma append_assoc (a b c : string) :
  (a ++ b ++ c = (a ++ b) ++ c)%string.
Proof.
  induction a as [|x a IH]; simpl; [reflexivity | now rewrite IH].
Qed.

Lemma found_tail (n : string) (tail : string) :
  ("Found " ++ n ++ tail = ("Found " ++ n) ++ tail)%string.
Proof. apply append_assoc. Qed.

End Strings.

Ltac tail_differs :=
  rewrite found_tail; rewrite endswith_clash by reflexivity;
  now rewrite ?andb_false_r.

Ltac tail_matches :=
  rewrite found_tail; rewrite endswith_self; simpl; reflexivity.

Section Kinds.

Variable n : nat.

Lemma window_kind_window : is_window_defect (window_message n) = true.
Proof. unfold is_window_defect, window_message. tail_matches. Qed.

Lemma window_kind_created : is_window_defect (daily_created_message n) = false.
Proof. unfold is_window_defect, daily_created_message. tail_differs. Qed.

Lemma window_kind_modified : is_window_defect (daily_modified_message n) = false.
Proof. unfold is_window_defect, daily_modified_message. tail_differs. Qed.

Lemma created_kind_created :
  is_daily_created_defect (daily_created_message n) = true.
Proof. unfold is_daily_created_defect, daily_created_message. tail_matches. Qed.

Lemma created_kind_modified :
  is_daily_created_defect (daily_modified_message n) = false.
Proof. unfold is_daily_created_defect, daily_modified_message. tail_differs. Qed.

Lemma created_kind_window : is_daily_created_defect (window_message n) = false.
Proof. unfold is_daily_created_defect, window_message. tail_differs. Qed.

Lemma full_created_kind_created :
  is_full_created_defect (full_created_message n) = true.
Proof. unfold is_full_created_defect, full_created_message. tail_matches. Qed.

Lemma full_created_kind_modified :
  is_full_created_defect (full_modified_message n) = false.
Proof. unfold is_full_created_defect, full_modified_message. tail_differs. Qed.

Lemma full_modified_kind_modified :
  is_full_modified_defect (full_modified_message n) = true.
Proof. unfold is_full_modified_defect, full_modified_message. tail_matches. Qed.

Lemma full_modified_kind_created :
  is_full_modified_defect (full_created_message n) = false.
Proof. unfold is_full_modified_defect, full_created_message. tail_differs. Qed.

End Kinds.

(** ** Frames, masks and selections *)

Section Frames.

Context {A B C : Type}.

Lemma combine_map (f : A -> B) (g : A -> C) (l : list A) :
  combine (map f l) (map g l) = map (fun x => (f x, g x)) l.
Proof.
  induction l as [|x l IH]; simpl; [reflexivity | now rewrite IH].
Qed.

Lemma select_rows (p : A -> bool) (l : list A) :
  map snd (filter (fun q => fst q) (combine (map p l) l)) = filter p l.
Proof.
  induction l as [|x l IH]; simpl; [reflexivity|].
  destruct (p x); simpl; now rewrite IH.
Qed.

Lemma positive_filter (p : A -> bool) (l : list A) :
  (0 <? length (filter p l))%nat = existsb p l.
Proof.
  induction l as [|x l IH]; simpl; [reflexivity|].
  destruct (p x); simpl; [reflexivity | exact IH].
Qed.

End Frames.

Lemma mask_and_map {A : Type} (f g : A -> bool) (l : list A) :
  mask_and (map f l) (map g l) = map (fun x => f x && g x) l.
Proof. unfold mask_and. now rewrite combine_map, map_map. Qed.

Lemma mask_or_map {A : Type} (f g : A -> bool) (l : list A) :
  mask_or (map f l) (map g l) = map (fun x => f x || g x) l.
Proof. unfold mask_or. now rewrite combine_map, map_map. Qed.

Lemma mask_not_map {A : Type} (f : A -> bool) (l : list A) :
  mask_not (map f l) = map (fun x => negb (f x)) l.
Proof. unfold mask_not. now rewrite map_map. Qed.

Lemma select_filter (df : DataFrame) (p : list cell -> bool) :
  select df (map p (rows df)) = mkDataFrame (columns df) (filter p (rows df)).
Proof. unfold select. now rewrite select_rows. Qed.

Lemma has_column_columns (name : string) (df : DataFrame) :
  has_column name df = true -> (length (columns df) =? 0)%nat = false.
Proof.
  unfold has_column. destruct (columns df); simpl; [discriminate | reflexivity].
Qed.

Lemma has_column_In (name : string) (df : DataFrame) :
  has_column name df = true <-> In name (columns df).
Proof.
  unfold has_column. rewrite existsb_exists. split.
  - intros [c [Hin Heq]]. apply String.eqb_eq in Heq. now subst.
  - intros Hin. exists name. split; [assumption | apply String.eqb_refl].
Qed.

Section Comparisons.

Variable op : Z -> Z -> bool.
Variable ts : Z.

Lemma cmp_elements_spec (col : list cell) :
  cmp_elements op col ts
  = if forallb timestamp_or_missing col
    then Return (map (fun c => match c with Timestamp ns => op ns ts | _ => false end) col)
    else Raise TypeError.
Proof.
  induction col as [|c col IH]; simpl; [reflexivity|].
  rewrite IH.
  destruct c; simpl; try reflexivity;
    destruct (forallb timestamp_or_missing col); reflexivity.
Qed.

Lemma numeric_no_datetime (col : list cell) :
  forallb is_numeric col = true -> existsb is_datetime col = false.
Proof.
  induction col as [|c col IH]; simpl; [reflexivity|].
  intros H. apply andb_true_iff in H. destruct H as [Hc Hcol].
  rewrite (IH Hcol). now destruct c.
Qed.

Lemma datetime_accepted (col : list cell) :
  forallb is_datetime col = true -> forallb timestamp_or_missing col = true.
Proof.
  induction col as [|c col IH]; simpl; [reflexivity|].
  intros H. apply andb_true_iff in H. destruct H as [Hc Hcol].
  rewrite (IH Hcol). now destruct c.
Qed.

Lemma accepted_not_numeric (col : list cell) :
  forallb timestamp_or_missing col = true ->
  forallb is_numeric col = false ->
  existsb is_datetime col = true.
Proof.
  induction col as [|c col IH]; simpl; [discriminate|].
  intros Ha Hn. apply andb_true_iff in Ha. destruct Ha as [Hc Hcol].
  destruct c; simpl in *; try discriminate; try reflexivity.
  now apply IH.
Qed.

(** A comparison with a timestamp returns exactly on the comparable columns,
    with a missing value compared false. *)
Lemma series_cmp_ts_spec (col : list cell) :
  series_cmp_ts op col ts
  = if column_comparable col
    then Return (map (fun c => match c with Timestamp ns => op ns ts | _ => false end) col)
    else Raise TypeError.
Proof.
  unfold series_cmp_ts, column_comparable, column_dtype.
  destruct col as [|c col]; [reflexivity|].
  rewrite cmp_elements_spec.
  destruct (forallb is_int (c :: col)) eqn:Hi.
  - simpl in Hi. destruct c; try discriminate. reflexivity.
  - destruct (forallb is_numeric (c :: col)) eqn:Hn.
    + rewrite (numeric_no_datetime _ Hn). now rewrite andb_false_r.
    + destruct (forallb is_datetime (c :: col)) eqn:Hd.
      * rewrite (datetime_accepted _ Hd).
        simpl in Hd. apply andb_true_iff in Hd. destruct Hd as [Hc _].
        simpl existsb. now rewrite Hc.
      * destruct (forallb timestamp_or_missing (c :: col)) eqn:Ha;
          [|reflexivity].
        now rewrite (accepted_not_numeric _ Ha Hn).
Qed.

Lemma parsed_comparable (col : list cell) :
  forallb is_datetime col = true -> column_comparable col = true.
Proof.
  intros H. unfold column_comparable. rewrite (datetime_accepted _ H).
  destruct col as [|c col]; [reflexivity|].
  simpl in H. apply andb_true_iff in H. destruct H as [Hc _].
  simpl. now rewrite Hc.
Qed.

(** On a parsed date column the comparisons never raise. *)
Lemma series_cmp_ts_parsed (col : list cell) :
  forallb is_datetime col = true ->
  series_cmp_ts op col ts
  = Return (map (fun c => match c with Timestamp ns => op ns ts | _ => false end) col).
Proof.
  intros H. now rewrite series_cmp_ts_spec, (parsed_comparable _ H).
Qed.

End Comparisons.

Lemma series_ge_parsed (df : DataFrame) (name : string) (ts : Z) :
  forallb is_datetime (getitem df name) = true ->
  series_ge (getitem df name) ts
  = Return (map (fun row => at_or_after ts (field (columns df) name row)) (rows df)).
Proof.
  intros H. unfold series_ge. rewrite (series_cmp_ts_parsed _ _ _ H).
  unfold getitem. rewrite map_map. f_equal. apply map_ext. intros row.
  unfold at_or_after. destruct (field (columns df) name row); try reflexivity.
  apply Z.geb_leb.
Qed.

Lemma series_lt_parsed (df : DataFrame) (name : string) (ts : Z) :
  forallb is_datetime (getitem df name) = true ->
  series_lt (getitem df name) ts
  = Return (map (fun row => before ts (field (columns df) name row)) (rows df)).
Proof.
  intros H. unfold series_lt. rewrite (series_cmp_ts_parsed _ _ _ H).
  unfold getitem. rewrite map_map. f_equal.
Qed.

Lemma series_ne_int_rows (df : DataFrame) (name : string) (k : Z) :
  series_ne_int (getitem df name) k
  = map (fun row => ne_int k (field (columns df) name row)) (rows df).
Proof. unfold series_ne_int, getitem. now rewrite map_map. Qed.

Lemma dates_parsed_column (df : DataFrame) (name : string) :
  dates_parsed df = true ->
  name = "DateCreated"%string \/ name = "DateModified"%string ->
  has_column name df = true ->
  forallb is_datetime (getitem df name) = true.
Proof.
  unfold dates_parsed. simpl. rewrite !andb_true_iff.
  intros [H1 [H2 _]] [-> | ->] Hc; [rewrite Hc in H1 | rewrite Hc in H2];
    simpl in *; assumption.
Qed.

(** A selection by a row predicate is empty exactly when no row satisfies it,
    as soon as the frame has a column. *)
Lemma empty_selection (df : DataFrame) (name : string) (p : list cell -> bool) :
  has_column name df = true ->
  empty (mkDataFrame (columns df) (filter p (rows df)))
  = (length (filter p (rows df)) =? 0)%nat.
Proof.
  intros H. unfold empty. simpl. rewrite (has_column_columns _ _ H).
  apply orb_false_r.
Qed.

(** ** The rules, one step of the code at a time *)

Section DailySteps.

Variable self : DumpFileValidator.
Variable raw : DataFrame.
Hypothesis parsed : dates_parsed raw = true.

Lemma aggregated_code (message : nat -> string) (name : string)
    (p : list cell -> bool) (vr : list string) :
  has_column name raw = true ->
  (if negb (empty (mkDataFrame (columns raw) (filter p (rows raw))))
   then vr ++ [message (len (mkDataFrame (columns raw) (filter p (rows raw))))]
   else vr)
  = vr ++ aggregated message (length (filter p (rows raw))).
Proof.
  intros H. rewrite (empty_selection _ _ _ H). unfold aggregated, len. simpl.
  destruct (length (filter p (rows raw)) =? 0)%nat; simpl;
    [now rewrite app_nil_r | reflexivity].
Qed.

Lemma step_created (vr : list string) :
  (if has_column "IsCreated" raw && has_column "DateCreated" raw then
     created_mask <- series_ge (getitem raw "DateCreated") (window_start self) ;;
     Return
       (if negb (empty (select raw
                          (mask_and created_mask
                             (series_ne_int (getitem raw "IsCreated") 1))))
        then vr ++ [daily_created_message
                      (len (select raw
                              (mask_and created_mask
                                 (series_ne_int (getitem raw "IsCreated") 1))))]
        else vr)
   else Return vr)
  = Return (vr ++ rule_daily_created self raw).
Proof.
  unfold rule_daily_created.
  destruct (has_column "IsCreated" raw) eqn:Hflag;
    destruct (has_column "DateCreated" raw) eqn:Hdate; simpl;
    try now rewrite app_nil_r.
  rewrite series_ge_parsed by (apply dates_parsed_column; auto).
  simpl. rewrite series_ne_int_rows, mask_and_map, select_filter.
  now rewrite (aggregated_code _ _ _ _ Hflag).
Qed.

Lemma step_modified (vr : list string) :
  (if has_column "IsModified" raw && has_column "DateModified" raw then
     modified_mask <- series_ge (getitem raw "DateModified") (window_start self) ;;
     Return
       (if negb (empty (select raw
                          (mask_and modified_mask
                             (series_ne_int (getitem raw "IsModified") 1))))
        then vr ++ [daily_modified_message
                      (len (select raw
                              (mask_and modified_mask
                                 (series_ne_int (getitem raw "IsModified") 1))))]
        else vr)
   else Return vr)
  = Return (vr ++ rule_daily_modified self raw).
Proof.
  unfold rule_daily_modified.
  destruct (has_column "IsModified" raw) eqn:Hflag;
    destruct (has_column "DateModified" raw) eqn:Hdate; simpl;
    try now rewrite app_nil_r.
  rewrite series_ge_parsed by (apply dates_parsed_column; auto).
  simpl. rewrite series_ne_int_rows, mask_and_map, select_filter.
  now rewrite (aggregated_code _ _ _ _ Hflag).
Qed.

Lemma step_window (vr : list string) :
  (if has_column "DateCreated" raw && has_column "DateModified" raw then
     c_ge <- series_ge (getitem raw "DateCreated") (window_start self) ;;
     c_lt <- series_lt (getitem raw "DateCreated") (window_end self) ;;
     m_ge <- series_ge (getitem raw "DateModified") (window_start self) ;;
     m_lt <- series_lt (getitem raw "DateModified") (window_end self) ;;
     Return
       (if negb (empty (select raw
                          (mask_not (mask_or (mask_and c_ge c_lt)
                                             (mask_and m_ge m_lt)))))
        then vr ++ [window_message
                      (len (select raw
                              (mask_not (mask_or (mask_and c_ge c_lt)
                                                 (mask_and m_ge m_lt)))))]
        else vr)
   else Return vr)
  = Return (vr ++ rule_window self raw).
Proof.
  unfold rule_window.
  destruct (has_column "DateCreated" raw) eqn:Hc;
    destruct (has_column "DateModified" raw) eqn:Hm; simpl;
    try now rewrite app_nil_r.
  rewrite !series_ge_parsed, !series_lt_parsed
    by (apply dates_parsed_column; auto).
  simpl. rewrite !mask_and_map, mask_or_map, mask_not_map, select_filter.
  now rewrite (aggregated_code _ _ _ _ Hc).
Qed.

End DailySteps.

Lemma common_rules (raw : DataFrame) (m : ManifestRow) :
  (if negb (existsb (fun col => has_column col raw) id_columns)
   then (if negb (Z.of_nat (len raw) =? row_count m)
         then [] ++ [row_count_message (row_count m) (len raw)]
         else []) ++ [no_id_message]
   else if negb (Z.of_nat (len raw) =? row_count m)
        then [] ++ [row_count_message (row_count m) (len raw)]
        else [])
  = rule_row_count raw m ++ rule_id raw.
Proof.
  unfold rule_row_count, rule_id.
  destruct (existsb _ id_columns); destruct (Z.of_nat (len raw) =? row_count m);
    reflexivity.
Qed.

Lemma daily_outcome (self : DumpFileValidator) (raw : DataFrame) (m : ManifestRow) :
  dates_parsed raw = true ->
  validate_daily_file self raw m
  = Return ((length (rule_row_count raw m ++ rule_id raw ++ mode_rules self raw Daily) =? 0)%nat,
            rule_row_count raw m ++ rule_id raw ++ mode_rules self raw Daily).
Proof.
  intros Hp. unfold validate_daily_file, check_id_column.
  rewrite positive_filter. cbv beta iota zeta.
  rewrite (step_created self raw Hp). unfold bind at 1.
  rewrite (step_modified self raw Hp). unfold bind at 1.
  rewrite (step_window self raw Hp). unfold bind.
  rewrite common_rules. unfold mode_rules.
  now rewrite <- !app_assoc.
Qed.

Section FullSteps.

Variable raw : DataFrame.

Lemma step_full_created (vr : list string) :
  (if has_column "IsCreated" raw then
     if negb (empty (select raw (series_ne_int (getitem raw "IsCreated") 1)))
     then vr ++ [full_created_message
                   (len (select raw (series_ne_int (getitem raw "IsCreated") 1)))]
     else vr
   else vr)
  = vr ++ rule_full_created raw.
Proof.
  unfold rule_full_created.
  destruct (has_column "IsCreated" raw) eqn:Hflag; [|now rewrite app_nil_r].
  rewrite series_ne_int_rows, select_filter.
  now rewrite (aggregated_code raw _ _ _ _ Hflag).
Qed.

Lemma step_full_modified (vr : list string) :
  (if has_column "IsModified" raw then
     if negb (empty (select raw (series_ne_int (getitem raw "IsModified") 0)))
     then vr ++ [full_modified_message
                   (len (select raw (series_ne_int (getitem raw "IsModified") 0)))]
     else vr
   else vr)
  = vr ++ rule_full_modified raw.
Proof.
  unfold rule_full_modified.
  destruct (has_column "IsModified" raw) eqn:Hflag; [|now rewrite app_nil_r].
  rewrite series_ne_int_rows, select_filter.
  now rewrite (aggregated_code raw _ _ _ _ Hflag).
Qed.

End FullSteps.

Lemma full_outcome (self : DumpFileValidator) (raw : DataFrame) (m : ManifestRow) :
  validate_full_file self raw m
  = Return ((length (rule_row_count raw m ++ rule_id raw ++ mode_rules self raw Full) =? 0)%nat,
            rule_row_count raw m ++ rule_id raw ++ mode_rules self raw Full).
Proof.
  unfold validate_full_file, check_id_column.
  rewrite positive_filter. cbv beta iota zeta.
  rewrite step_full_created, step_full_modified, common_rules.
  unfold mode_rules. now rewrite <- !app_assoc.
Qed.

Lemma evaluate_outcome (self : DumpFileValidator) (raw : DataFrame)
    (m : ManifestRow) (mode : Mode) :
  well_typed mode raw = true ->
  evaluate self raw m mode
  = Return ((length (defects self raw m mode) =? 0)%nat, defects self raw m mode).
Proof.
  destruct mode; simpl; intros H.
  - now apply daily_outcome.
  - apply full_outcome.
Qed.

(** ** Sorting the returned messages by kind *)

Section Classification.

Variable kind : string -> bool.

Lemma filter_aggregated_keep (message : nat -> string) (n : nat) :
  (forall k, kind (message k) = true) ->
  filter kind (aggregated message n) = aggregated message n.
Proof.
  intros H. unfold aggregated. destruct (n =? 0)%nat; simpl; [reflexivity|].
  now rewrite H.
Qed.

Lemma filter_aggregated_drop (message : nat -> string) (n : nat) :
  (forall k, kind (message k) = false) ->
  filter kind (aggregated message n) = [].
Proof.
  intros H. unfold aggregated. destruct (n =? 0)%nat; simpl; [reflexivity|].
  now rewrite H.
Qed.

Lemma filter_rule_row_count_drop (raw : DataFrame) (m : ManifestRow) :
  (forall e g, kind (row_count_message e g) = false) ->
  filter kind (rule_row_count raw m) = [].
Proof.
  intros H. unfold rule_row_count.
  destruct (Z.of_nat (len raw) =? row_count m); simpl; [reflexivity|].
  now rewrite H.
Qed.

Lemma filter_rule_id_drop (raw : DataFrame) :
  kind no_id_message = false -> filter kind (rule_id raw) = [].
Proof.
  intros H. unfold rule_id.
  destruct (existsb _ id_columns); simpl; [reflexivity|].
  now rewrite H.
Qed.

Lemma filter_gated_drop (gate : bool) (message : nat -> string) (n : nat) :
  (forall k, kind (message k) = false) ->
  filter kind (if gate then aggregated message n else []) = [].
Proof.
  intros H. destruct gate; [now apply filter_aggregated_drop | reflexivity].
Qed.

Lemma filter_gated_keep (gate : bool) (message : nat -> string) (n : nat) :
  (forall k, kind (message k) = true) ->
  filter kind (if gate then aggregated message n else [])
  = if gate then aggregated message n else [].
Proof.
  intros H. destruct gate; [now apply filter_aggregated_keep | reflexivity].
Qed.

End Classification.

Lemma window_defects (self : DumpFileValidator) (raw : DataFrame) (m : ManifestRow) :
  filter is_window_defect (defects self raw m Daily) = rule_window self raw.
Proof.
  unfold defects, mode_rules. rewrite !filter_app.
  rewrite filter_rule_row_count_drop by reflexivity.
  rewrite filter_rule_id_drop by reflexivity.
  unfold rule_daily_created, rule_daily_modified, rule_window.
  rewrite (filter_gated_drop _ _ _ _ window_kind_created).
  rewrite (filter_gated_drop _ _ _ _ window_kind_modified).
  now rewrite (filter_gated_keep _ _ _ _ window_kind_window).
Qed.

Lemma daily_created_defects (self : DumpFileValidator) (raw : DataFrame)
    (m : ManifestRow) :
  filter is_daily_created_defect (defects self raw m Daily)
  = rule_daily_created self raw.
Proof.
  unfold defects, mode_rules. rewrite !filter_app.
  rewrite filter_rule_row_count_drop by reflexivity.
  rewrite filter_rule_id_drop by reflexivity.
  unfold rule_daily_created, rule_daily_modified, rule_window.
  rewrite (filter_gated_keep _ _ _ _ created_kind_created).
  rewrite (filter_gated_drop _ _ _ _ created_kind_modified).
  rewrite (filter_gated_drop _ _ _ _ created_kind_window).
  now rewrite !app_nil_r.
Qed.

Lemma full_created_defects (self : DumpFileValidator) (raw : DataFrame)
    (m : ManifestRow) :
  filter is_full_created_defect (defects self raw m Full) = rule_full_created raw.
Proof.
  unfold defects, mode_rules. rewrite !filter_app.
  rewrite filter_rule_row_count_drop by reflexivity.
  rewrite filter_rule_id_drop by reflexivity.
  unfold rule_full_created, rule_full_modified.
  rewrite (filter_gated_keep _ _ _ _ full_created_kind_created).
  rewrite (filter_gated_drop _ _ _ _ full_created_kind_modified).
  now rewrite !app_nil_r.
Qed.

Lemma full_modified_defects (self : DumpFileValidator) (raw : DataFrame)
    (m : ManifestRow) :
  filter is_full_modified_defect (defects self raw m Full) = rule_full_modified raw.
Proof.
  unfold defects, mode_rules. rewrite !filter_app.
  rewrite filter_rule_row_count_drop by reflexivity.
  rewrite filter_rule_id_drop by reflexivity.
  unfold rule_full_created, rule_full_modified.
  rewrite (filter_gated_drop _ _ _ _ full_modified_kind_created).
  now rewrite (filter_gated_keep _ _ _ _ full_modified_kind_modified).
Qed.

Lemma found_not_row_count (n : string) (tail : string) :
  is_row_count_defect ("Found " ++ n ++ tail) = false.
Proof. reflexivity. Qed.

Lemma mode_rules_not_row_count (self : DumpFileValidator) (raw : DataFrame)
    (mode : Mode) :
  filter is_row_count_defect (mode_rules self raw mode) = [].
Proof.
  destruct mode; unfold mode_rules, rule_daily_created, rule_daily_modified,
    rule_window, rule_full_created, rule_full_modified;
    rewrite ?filter_app, ?filter_gated_drop; try reflexivity;
    intros k; apply found_not_row_count.
Qed.

Lemma row_count_defects (self : DumpFileValidator) (raw : DataFrame)
    (m : ManifestRow) (mode : Mode) :
  filter is_row_count_defect (defects self raw m mode) = rule_row_count raw m.
Proof.
  unfold defects. rewrite !filter_app, mode_rules_not_row_count.
  rewrite filter_rule_id_drop by reflexivity. rewrite !app_nil_r.
  unfold rule_row_count.
  destruct (Z.of_nat (len raw) =? row_count m); reflexivity.
Qed.

Lemma column_count (df : DataFrame) (name : string) (k : Z) :
  length (filter (fun row => ne_int k (field (columns df) name row)) (rows df))
  = length (filter (ne_int k) (getitem df name)).
Proof.
  unfold getitem. induction (rows df) as [|row l IH]; simpl; [reflexivity|].
  destruct (ne_int k (field (columns df) name row)); simpl; now rewrite IH.
Qed.

Lemma is_nil_length {A : Type} (l : list A) :
  (length l =? 0)%nat = true <-> l = [].
Proof.
  destruct l; simpl; split; intros H; try reflexivity; discriminate.
Qed.

Lemma bind_Return {A B : Type} (c : result A) (k : A -> result B) (b : B) :
  bind c k = Return b -> exists a, c = Return a /\ k a = Return b.
Proof.
  destruct c as [a|e]; simpl; [|discriminate]. intros H. now exists a.
Qed.

(** Whatever the input, a returned outcome carries the flag computed from the
    final message list. *)
Lemma daily_returns_flag (self : DumpFileValidator) (raw : DataFrame)
    (m : ManifestRow) (valid : bool) (msgs : list string) :
  validate_daily_file self raw m = Return (valid, msgs) ->
  valid = (length msgs =? 0)%nat.
Proof.
  unfold validate_daily_file. cbv beta iota zeta. intros H.
  apply bind_Return in H. destruct H as [v1 [_ H]].
  apply bind_Return in H. destruct H as [v2 [_ H]].
  apply bind_Return in H. destruct H as [v3 [_ H]].
  now inversion H.
Qed.

Lemma full_returns_flag (self : DumpFileValidator) (raw : DataFrame)
    (m : ManifestRow) (valid : bool) (msgs : list string) :
  validate_full_file self raw m = Return (valid, msgs) ->
  valid = (length msgs =? 0)%nat.
Proof. rewrite full_outcome. intros H. now inversion H. Qed.

(** * The rule engine *)

(** C3. Daily mode, time-window membership: on a frame whose date columns are
    parsed, the messages of [validate_daily_file] contain, when both
    [DateCreated] and [DateModified] are present, exactly one window defect
    carrying the number of records that satisfy neither
    [window.start <= DateCreated < window.end] nor
    [window.start <= DateModified < window.end] (none when that number is
    zero), and no window defect at all when either column is absent. *)
Theorem daily_time_window (self : DumpFileValidator) (raw : DataFrame)
    (m : ManifestRow) :
  dates_parsed raw = true ->
  exists valid msgs,
    validate_daily_file self raw m = Return (valid, msgs) /\
    filter is_window_defect msgs
    = if has_column "DateCreated" raw && has_column "DateModified" raw
      then aggregated window_message (violations (outside_window self) raw)
      else [].
Proof.
  intros Hp. eexists. eexists. split; [now apply daily_outcome|].
  apply window_defects.
Qed.

(** C4. Full mode: [validate_full_file] always returns; its messages contain
    one defect counting the cells of column [IsCreated] that differ from 1
    when that column is present and the count is positive, one defect
    counting the cells of column [IsModified] that differ from 0 likewise,
    and no such defect for an absent column.  Both counts are functions of
    the flag column alone: no date column is read. *)
Theorem full_flag_invariants (self : DumpFileValidator) (raw : DataFrame)
    (m : ManifestRow) :
  exists valid msgs,
    validate_full_file self raw m = Return (valid, msgs) /\
    filter is_full_created_defect msgs
    = (if has_column "IsCreated" raw
       then aggregated full_created_message
              (length (filter (ne_int 1) (getitem raw "IsCreated")))
       else []) /\
    filter is_full_modified_defect msgs
    = (if has_column "IsModified" raw
       then aggregated full_modified_message
              (length (filter (ne_int 0) (getitem raw "IsModified")))
       else []).
Proof.
  eexists. eexists. split; [apply full_outcome|].
  fold (defects self raw m Full).
  rewrite full_created_defects, full_modified_defects.
  unfold rule_full_created, rule_full_modified, violations, not_created, is_modified.
  now rewrite !column_count.
Qed.

(** C5. Row count: on well-typed input, in both modes, [evaluate] reports a
    row-count defect if and only if [len(raw)] differs from the manifest's
    [row_count], and the one it reports reads
    "Row count mismatch: expected <row_count>, got <len(raw)>". *)
Theorem row_count_defect (self : DumpFileValidator) (raw : DataFrame)
    (m : ManifestRow) (mode : Mode) :
  well_typed mode raw = true ->
  exists valid msgs,
    evaluate self raw m mode = Return (valid, msgs) /\
    ((exists d, In d msgs /\ is_row_count_defect d = true)
     <-> Z.of_nat (len raw) <> row_count m) /\
    (forall d, In d msgs -> is_row_count_defect d = true ->
       d = ("Row count mismatch: expected " ++ str_of_Z (row_count m)
            ++ ", got " ++ str_of_nat (len raw))%string).
Proof.
  intros Hw. eexists. eexists. split; [now apply evaluate_outcome|].
  assert (Hin : forall d, In d (defects self raw m mode) /\ is_row_count_defect d = true
                          <-> In d (rule_row_count raw m)).
  { intros d. rewrite <- (row_count_defects self raw m mode). symmetry.
    apply filter_In. }
  unfold rule_row_count in Hin.
  destruct (Z.eqb_spec (Z.of_nat (len raw)) (row_count m)) as [Heq | Hne].
  - split.
    + split; [|contradiction]. intros [d Hd]. apply Hin in Hd. destruct Hd.
    + intros d H1 H2. destruct (proj1 (Hin d) (conj H1 H2)).
  - split.
    + split; [intros _; exact Hne|]. intros _.
      exists (row_count_message (row_count m) (len raw)).
      apply Hin. now left.
    + intros d H1 H2. destruct (proj1 (Hin d) (conj H1 H2)) as [<- | []].
      reflexivity.
Qed.

Lemma found_not_no_id (n : string) (tail : string) :
  is_no_id_defect ("Found " ++ n ++ tail) = false.
Proof. reflexivity. Qed.

Lemma no_id_defects (self : DumpFileValidator) (raw : DataFrame)
    (m : ManifestRow) (mode : Mode) :
  filter is_no_id_defect (defects self raw m mode) = rule_id raw.
Proof.
  unfold defects. rewrite !filter_app.
  rewrite filter_rule_row_count_drop by reflexivity.
  assert (Hrest : filter is_no_id_defect (mode_rules self raw mode) = []).
  { destruct mode; unfold mode_rules, rule_daily_created, rule_daily_modified,
      rule_window, rule_full_created, rule_full_modified;
      rewrite ?filter_app, ?filter_gated_drop; try reflexivity;
      intros k; apply found_not_no_id. }
  rewrite Hrest, app_nil_r. unfold rule_id.
  destruct (existsb _ id_columns); reflexivity.
Qed.

Lemma check_id_column_first (df : DataFrame) :
  check_id_column df
  = (existsb (fun name => has_column name df) id_columns,
     find (fun name => has_column name df) id_columns).
Proof.
  unfold check_id_column. rewrite positive_filter. f_equal.
  induction id_columns as [|c l IH]; simpl; [reflexivity|].
  destruct (has_column c df); [reflexivity | exact IH].
Qed.

(** C7. Identifier detection: [check_id_column] answers with the first name of
    [ID, Id, DataID, ProductOptionDataID] that is a column of the frame (a
    frame with columns [Id] and [DataID], in either order, gives [Id]), and
    on well-typed input [evaluate] reports "No valid ID column found" if and
    only if none of the four names is a column. *)
Theorem id_detection (self : DumpFileValidator) (raw : DataFrame)
    (m : ManifestRow) (mode : Mode) :
  well_typed mode raw = true ->
  id_columns = ["ID"; "Id"; "DataID"; "ProductOptionDataID"]%string /\
  check_id_column raw
  = (existsb (fun name => has_column name raw) id_columns,
     find (fun name => has_column name raw) id_columns) /\
  (forall data,
     check_id_column (mkDataFrame ["Id"; "DataID"]%string data)
     = (true, Some "Id"%string) /\
     check_id_column (mkDataFrame ["DataID"; "Id"]%string data)
     = (true, Some "Id"%string)) /\
  exists valid msgs,
    evaluate self raw m mode = Return (valid, msgs) /\
    (In "No valid ID column found"%string msgs
     <-> forall name, In name id_columns -> ~ In name (columns raw)).
Proof.
  intros Hw. split; [reflexivity|]. split; [apply check_id_column_first|].
  split; [intros data; split; reflexivity|].
  eexists. eexists. split; [now apply evaluate_outcome|].
  assert (Hin : In no_id_message (defects self raw m mode)
                <-> In no_id_message (rule_id raw)).
  { rewrite <- (no_id_defects self raw m mode), filter_In.
    split; [intros H; now split | now intros [H _]]. }
  fold no_id_message. rewrite Hin. unfold rule_id.
  destruct (existsb (fun name => has_column name raw) id_columns) eqn:Hex.
  - split; [intros []|]. intros Hnone. apply existsb_exists in Hex.
    destruct Hex as [name [Hname Hcol]]. apply has_column_In in Hcol.
    now apply (Hnone name).
  - split; [|intros _; now left]. intros _ name Hname Hcol.
    apply has_column_In in Hcol.
    assert (Hex' : existsb (fun name => has_column name raw) id_columns = true)
      by (apply existsb_exists; now exists name).
    congruence.
Qed.

(** C8. The outcome: whenever [evaluate] returns, its flag is true if and only
    if its message list is empty; and on well-typed input it does return,
    with the defects of every rule of the mode in the order of the rules, the
    row-count defect, when there is one, standing in front of the others
    without replacing any of them. *)
Theorem outcome_invariant (self : DumpFileValidator) (raw : DataFrame)
    (m : ManifestRow) (mode : Mode) :
  (forall valid msgs,
     evaluate self raw m mode = Return (valid, msgs) ->
     (valid = true <-> msgs = [])) /\
  (well_typed mode raw = true ->
   exists valid msgs,
     evaluate self raw m mode = Return (valid, msgs) /\
     (valid = true <-> msgs = []) /\
     msgs = rule_row_count raw m ++ rule_id raw ++ mode_rules self raw mode /\
     (Z.of_nat (len raw) <> row_count m ->
      msgs = row_count_message (row_count m) (len raw)
             :: rule_id raw ++ mode_rules self raw mode)).
Proof.
  assert (Hflag : forall valid msgs,
             evaluate self raw m mode = Return (valid, msgs) ->
             (valid = true <-> msgs = [])).
  { intros valid msgs H.
    assert (Hv : valid = (length msgs =? 0)%nat)
      by (destruct mode;
          [apply (daily_returns_flag self raw m) | apply (full_returns_flag self raw m)];
          exact H).
    rewrite Hv. apply is_nil_length. }
  split; [exact Hflag|]. intros Hw.
  pose proof (evaluate_outcome self raw m mode Hw) as Hout.
  exists (length (defects self raw m mode) =? 0)%nat, (defects self raw m mode).
  split; [exact Hout|].
  split; [apply is_nil_length|]. split; [reflexivity|].
  intros Hne. unfold defects, rule_row_count.
  destruct (Z.eqb_spec (Z.of_nat (len raw)) (row_count m)); [contradiction|].
  reflexivity.
Qed.

Lemma violations_split (p : list cell -> bool) (pre post : list (list cell))
    (row : list cell) :
  length (filter p (pre ++ row :: post))
  = (length (filter p pre) + (if p row then 1 else 0) + length (filter p post))%nat.
Proof.
  rewrite filter_app, length_app. simpl. destruct (p row); simpl; lia.
Qed.

Lemma created_violation_at_start (self : DumpFileValidator) (cols : list string)
    (row : list cell) :
  field cols "DateCreated" row = Timestamp (window_start self) ->
  created_violation self cols row = ne_int 1 (field cols "IsCreated" row).
Proof.
  intros H. unfold created_violation. rewrite H. simpl. now rewrite Z.leb_refl.
Qed.

(** C6. Daily mode, [IsCreated] against the start of the window (inclusive):
    with columns [IsCreated] and [DateCreated] present and dates parsed, the
    messages contain one defect "Found n invalid IsCreated values" for the
    number n of violating records when n is positive, and none otherwise.  A
    record whose [DateCreated] is exactly [window_start] adds one to n when
    its [IsCreated] is 0, so that n >= 1 and the defect is reported, and adds
    nothing when its [IsCreated] is 1.  With n = 1 the text is
    "Found 1 invalid IsCreated values". *)
Theorem daily_created_boundary (self : DumpFileValidator) (raw : DataFrame)
    (m : ManifestRow) :
  dates_parsed raw = true ->
  has_column "IsCreated" raw = true ->
  has_column "DateCreated" raw = true ->
  exists valid msgs,
    validate_daily_file self raw m = Return (valid, msgs) /\
    let count := fun l => length (filter (created_violation self (columns raw)) l) in
    let n := count (rows raw) in
    filter is_daily_created_defect msgs = aggregated daily_created_message n /\
    (forall pre row post,
       rows raw = pre ++ row :: post ->
       field (columns raw) "DateCreated" row = Timestamp (window_start self) ->
       (field (columns raw) "IsCreated" row = Int 0 ->
        n = (count pre + 1 + count post)%nat /\ (1 <= n)%nat /\
        In (daily_created_message n) msgs) /\
       (field (columns raw) "IsCreated" row = Int 1 ->
        n = (count pre + count post)%nat)) /\
    (n = 1%nat -> In "Found 1 invalid IsCreated values"%string msgs).
Proof.
  intros Hp Hflag Hdate. eexists. eexists. split; [now apply daily_outcome|].
  fold (defects self raw m Daily). cbv zeta.
  assert (Hkind : filter is_daily_created_defect (defects self raw m Daily)
                  = aggregated daily_created_message
                      (length (filter (created_violation self (columns raw)) (rows raw)))).
  { rewrite daily_created_defects. unfold rule_daily_created.
    now rewrite Hflag, Hdate. }
  assert (Hrep : forall n,
             n = length (filter (created_violation self (columns raw)) (rows raw)) ->
             (1 <= n)%nat -> In (daily_created_message n) (defects self raw m Daily)).
  { intros n Hn Hpos.
    assert (Hin : In (daily_created_message n)
                     (filter is_daily_created_defect (defects self raw m Daily))).
    { rewrite Hkind, <- Hn. unfold aggregated.
      destruct (Nat.eqb_spec n 0); [lia | now left]. }
    now apply filter_In in Hin. }
  split; [exact Hkind|]. split.
  - intros pre row post Hrows Hts.
    assert (Hn : length (filter (created_violation self (columns raw)) (rows raw))
                 = (length (filter (created_violation self (columns raw)) pre)
                    + (if ne_int 1 (field (columns raw) "IsCreated" row) then 1 else 0)
                    + length (filter (created_violation self (columns raw)) post))%nat).
    { rewrite Hrows, violations_split.
      now rewrite (created_violation_at_start self _ _ Hts). }
    split; intros Hic; rewrite Hic in Hn; simpl in Hn.
    + split; [exact Hn|]. split; [lia|]. apply Hrep; [reflexivity | lia].
    + lia.
  - intros Hone. apply (Hrep 1%nat); [now rewrite Hone | lia].
Qed.

(** * The boundary comparator *)

Section Rows.

Lemma list_eqb_refl {A : Type} (eqb : A -> A -> bool) (l : list A) :
  (forall a, eqb a a = true) -> list_eqb eqb l l = true.
Proof.
  intros H. induction l as [|a l IH]; simpl; [reflexivity|].
  now rewrite H, IH.
Qed.

Lemma list_eqb_sym {A : Type} (eqb : A -> A -> bool) (l1 l2 : list A) :
  (forall a b, eqb a b = eqb b a) -> list_eqb eqb l1 l2 = list_eqb eqb l2 l1.
Proof.
  intros H. revert l2. induction l1 as [|a l1 IH]; intros [|b l2]; simpl;
    try reflexivity.
  now rewrite H, IH.
Qed.

Lemma cell_eqb_refl (c : cell) : cell_eqb c c = true.
Proof.
  destruct c; simpl; auto using Z.eqb_refl, String.eqb_refl.
Qed.

Lemma cell_eqb_sym (a b : cell) : cell_eqb a b = cell_eqb b a.
Proof.
  destruct a, b; simpl; auto using Z.eqb_sym, String.eqb_sym.
Qed.

Lemma dtype_eqb_refl (d : dtype) : dtype_eqb d d = true.
Proof. now destruct d. Qed.

Lemma dtype_eqb_sym (a b : dtype) : dtype_eqb a b = dtype_eqb b a.
Proof. now destruct a, b. Qed.


Lemma same_values_refl (s : Series) : same_values s s = true.
Proof.
  unfold same_values.
  rewrite (list_eqb_refl String.eqb) by apply String.eqb_refl.
  now rewrite (list_eqb_refl cell_eqb) by apply cell_eqb_refl.
Qed.

Lemma same_values_sym (s1 s2 : Series) : same_values s1 s2 = same_values s2 s1.
Proof.
  unfold same_values.
  rewrite (list_eqb_sym String.eqb (index s1)) by apply String.eqb_sym.
  now rewrite (list_eqb_sym cell_eqb (values s1)) by apply cell_eqb_sym.
Qed.

Lemma equals_refl (s : Series) : equals s s = true.
Proof.
  unfold equals. now rewrite dtype_eqb_refl, same_values_refl.
Qed.

Lemma equals_sym (s1 s2 : Series) : equals s1 s2 = equals s2 s1.
Proof.
  unfold equals. now rewrite dtype_eqb_sym, same_values_sym.
Qed.

End Rows.

Section Positions.

Variable df : DataFrame.

Lemma iloc_at (i : nat) (row : list cell) :
  nth_error (rows df) i = Some row ->
  iloc df (Z.of_nat i) = Return (series_of_row df row).
Proof.
  intros H. unfold iloc, len.
  assert (Hi : (i < length (rows df))%nat)
    by (apply nth_error_Some; congruence).
  replace (Z.of_nat i <? 0) with false by (symmetry; apply Z.ltb_ge; lia).
  cbv iota.
  replace (Z.of_nat i <? 0) with false by (symmetry; apply Z.ltb_ge; lia).
  replace (Z.of_nat (length (rows df)) <=? Z.of_nat i) with false
    by (symmetry; apply Z.leb_gt; lia).
  simpl. now rewrite Nat2Z.id, H.
Qed.

Lemma iloc_last (l : list (list cell)) (row : list cell) :
  rows df = l ++ [row] ->
  iloc df (-1) = Return (series_of_row df row).
Proof.
  intros H. unfold iloc, len. rewrite H, length_app. simpl length.
  change (-1 <? 0) with true. cbv iota.
  replace (-1 + Z.of_nat (length l + 1)) with (Z.of_nat (length l)) by lia.
  replace (Z.of_nat (length l) <? 0) with false by (symmetry; apply Z.ltb_ge; lia).
  replace (Z.of_nat (length l + 1) <=? Z.of_nat (length l)) with false
    by (symmetry; apply Z.leb_gt; lia).
  simpl. rewrite Nat2Z.id, nth_error_app2 by lia.
  now rewrite Nat.sub_diag.
Qed.

Lemma iloc_empty (i : Z) : rows df = [] -> iloc df i = Raise IndexError.
Proof.
  intros H. unfold iloc, len. rewrite H. simpl.
  destruct (i <? 0) eqn:Hi.
  - rewrite Z.add_0_r, Hi. reflexivity.
  - rewrite Hi. simpl.
    replace (0 <=? i) with true by (symmetry; apply Z.leb_le; apply Z.ltb_ge; exact Hi).
    reflexivity.
Qed.

End Positions.

Lemma two_rows (df : DataFrame) :
  len df = 2%nat -> exists v0 v1, rows df = [v0; v1].
Proof.
  unfold len. destruct (rows df) as [|v0 [|v1 [|v2 l]]]; simpl; try discriminate.
  intros _. now exists v0, v1.
Qed.

(** The two-row branch, whole: an empty raw frame makes the first [iloc]
    raise, an accepted pairing returns, and the rejection path stops at the
    read of [single_row_match]. *)
Lemma two_row_branch (self : DumpFileValidator) (raw validation : DataFrame) :
  len validation = 2%nat ->
  compare_validation_files self raw validation
  = if (len raw =? 0)%nat then Raise IndexError
    else if first_pairing raw validation || last_pairing raw validation
         then Return passed
         else Raise UnboundLocalError.
Proof.
  intros Hlen. destruct (two_rows _ Hlen) as [v0 [v1 Hv]].
  assert (H0 : iloc validation 0 = Return (series_of_row validation v0))
    by (apply (iloc_at validation 0); now rewrite Hv).
  assert (H1 : iloc validation 1 = Return (series_of_row validation v1))
    by (apply (iloc_at validation 1); now rewrite Hv).
  unfold compare_validation_files, first_pairing, last_pairing.
  rewrite Hlen, H0, H1. simpl Nat.eqb. rewrite andb_false_r. cbv iota. simpl negb.
  cbv iota.
  destruct (rows raw) as [|r0 l] eqn:Hraw.
  - unfold len at 1. rewrite Hraw. simpl. now rewrite (iloc_empty raw 0 Hraw).
  - assert (Hf : iloc raw 0 = Return (series_of_row raw r0))
      by (apply (iloc_at raw 0); now rewrite Hraw).
    assert (Hnil : r0 :: l <> []) by discriminate.
    destruct (exists_last Hnil) as [l' [rn Hl]].
    assert (Hl' : iloc raw (-1) = Return (series_of_row raw rn))
      by (apply (iloc_last raw l'); congruence).
    unfold len at 1. rewrite Hraw, Hf, Hl'. simpl.
    destruct (equals (series_of_row raw r0)
                     (series_of_row validation v1));
      destruct (equals (series_of_row raw rn)
                       (series_of_row validation v0));
      reflexivity.
Qed.

(** The rejection message of the two-row branch is returned on no input. *)
Lemma no_match_unreachable (self : DumpFileValidator) (raw validation : DataFrame) :
  compare_validation_files self raw validation <> Return no_match.
Proof.
  destruct (Nat.eq_dec (len validation) 2) as [H2 | H2].
  - rewrite (two_row_branch self raw validation H2).
    destruct (len raw =? 0)%nat; [discriminate|].
    destruct (first_pairing raw validation || last_pairing raw validation);
      discriminate.
  - unfold compare_validation_files.
    destruct (len validation =? 0)%nat; [discriminate|].
    destruct ((len raw =? 1)%nat && (len validation =? 1)%nat).
    + destruct (iloc raw 0) as [r|e]; simpl; [|discriminate].
      destruct (iloc validation 0) as [v|e]; simpl; [|discriminate].
      destruct (equals r v); discriminate.
    + apply Nat.eqb_neq in H2. rewrite H2. simpl. discriminate.
Qed.

(** C1. The rejection path of the two-row branch does not return: with a
    two-row validation frame and neither pairing, [compare_validation_files]
    raises, [IndexError] on an empty raw frame and [UnboundLocalError] on
    every other, and so never answers
    (false, "First and/or last rows don't match between raw and validation files"). *)
Theorem no_match_path_raises (self : DumpFileValidator) (raw validation : DataFrame) :
  len validation = 2%nat ->
  first_pairing raw validation = false ->
  last_pairing raw validation = false ->
  compare_validation_files self raw validation
  = Raise (if (len raw =? 0)%nat then IndexError else UnboundLocalError) /\
  compare_validation_files self raw validation
  <> Return (false,
             "First and/or last rows don't match between raw and validation files"%string).
Proof.
  intros H2 Hf Hl. split; [|apply no_match_unreachable].
  rewrite (two_row_branch self raw validation H2), Hf, Hl.
  destruct (len raw =? 0)%nat; reflexivity.
Qed.





Lemma pairing_accepted (self : DumpFileValidator) (raw validation : DataFrame) :
  len validation = 2%nat ->
  first_pairing raw validation = true \/ last_pairing raw validation = true ->
  compare_validation_files self raw validation = Return passed.
Proof.
  intros H2 Hp. rewrite (two_row_branch self raw validation H2).
  destruct (len raw =? 0)%nat eqn:Hraw.
  - exfalso. apply Nat.eqb_eq in Hraw.
    assert (Hrows : rows raw = [])
      by (unfold len in Hraw; now destruct (rows raw)).
    unfold first_pairing, last_pairing in Hp.
    rewrite !(iloc_empty raw _ Hrows) in Hp. destruct Hp; discriminate.
  - destruct Hp as [-> | ->]; [reflexivity | now rewrite orb_true_r].
Qed.

(** C9. Acceptance in the two-row branch is disjunctive: with a two-row
    validation frame, [compare_validation_files] returns valid as soon as one
    pairing holds, a pairing being [equals] of the two rows: same labels,
    same type, same values.  So a first validation row with the values of
    the last raw row is enough whatever the second validation row holds,
    provided the two rows compared have the same type; and likewise a second
    validation row with the values of the first raw row. *)
Theorem two_row_disjunctive (self : DumpFileValidator) (raw validation : DataFrame) :
  len validation = 2%nat ->
  (first_pairing raw validation = true \/ last_pairing raw validation = true ->
   compare_validation_files self raw validation
   = Return (true, "Validation file check passed"%string)) /\
  (forall rl v0,
     iloc raw (-1) = Return rl -> iloc validation 0 = Return v0 ->
     same_values rl v0 = true -> dtype_of rl = dtype_of v0 ->
     compare_validation_files self raw validation
     = Return (true, "Validation file check passed"%string)) /\
  (forall r0 v1,
     iloc raw 0 = Return r0 -> iloc validation 1 = Return v1 ->
     same_values r0 v1 = true -> dtype_of r0 = dtype_of v1 ->
     compare_validation_files self raw validation
     = Return (true, "Validation file check passed"%string)).
Proof.
  intros H2. split; [|split].
  - now apply pairing_accepted.
  - intros rl v0 Hrl Hv0 Hsame Hd. apply pairing_accepted; [assumption|].
    right. unfold last_pairing, equals. rewrite Hrl, Hv0, Hsame, Hd.
    now rewrite dtype_eqb_refl.
  - intros r0 v1 Hr0 Hv1 Hsame Hd. apply pairing_accepted; [assumption|].
    left. unfold first_pairing, equals. rewrite Hr0, Hv1, Hsame, Hd.
    now rewrite dtype_eqb_refl.
Qed.

(** C10. One validation row: the single-row comparison is made only when the
    raw frame has exactly one row too.  With any other number of raw rows,
    in particular more than one, [compare_validation_files] returns invalid
    with "Validation file should contain exactly 2 data rows (first and
    last), found 1 rows". *)
Theorem single_validation_row (self : DumpFileValidator) (raw validation : DataFrame) :
  len validation = 1%nat ->
  (len raw <> 1%nat ->
   compare_validation_files self raw validation
   = Return (false,
             "Validation file should contain exactly 2 data rows (first and last), found 1 rows"%string)) /\
  (len raw = 1%nat ->
   exists r v,
     iloc raw 0 = Return r /\ iloc validation 0 = Return v /\
     compare_validation_files self raw validation
     = Return (if equals r v
               then (true, "Validation check passed"%string)
               else (false, "Validation and raw row mismatch"%string))).
Proof.
  intros H1. unfold compare_validation_files. rewrite H1. simpl Nat.eqb.
  cbv iota. split.
  - intros Hraw. apply Nat.eqb_neq in Hraw. rewrite Hraw. reflexivity.
  - intros Hraw. rewrite Hraw. simpl.
    assert (Hr : exists r, rows raw = [r])
      by (unfold len in Hraw; destruct (rows raw) as [|r [|? ?]];
          try discriminate; now exists r).
    assert (Hv : exists v, rows validation = [v])
      by (unfold len in H1; destruct (rows validation) as [|v [|? ?]];
          try discriminate; now exists v).
    destruct Hr as [r Hr]. destruct Hv as [v Hv].
    exists (series_of_row raw r), (series_of_row validation v).
    assert (Hir : iloc raw 0 = Return (series_of_row raw r))
      by (apply (iloc_at raw 0); now rewrite Hr).
    assert (Hiv : iloc validation 0 = Return (series_of_row validation v))
      by (apply (iloc_at validation 0); now rewrite Hv).
    rewrite Hir, Hiv. simpl. split; [reflexivity|]. split; [reflexivity|].
    destruct (equals _ _); reflexivity.
Qed.

(** * The theorems at the sample tables *)

Lemma daily_time_window_witness :
  dates_parsed audit = true /\
  exists valid msgs,
    validate_daily_file init audit orders_manifest = Return (valid, msgs) /\
    filter is_window_defect msgs
    = if has_column "DateCreated" audit && has_column "DateModified" audit
      then aggregated window_message (violations (outside_window init) audit)
      else [].
Proof.
  split; [reflexivity|].
  apply (daily_time_window init audit orders_manifest). reflexivity.
Defined.

Lemma row_count_defect_witness :
  well_typed Daily audit = true /\
  exists valid msgs,
    evaluate init audit orders_manifest Daily = Return (valid, msgs) /\
    ((exists d, In d msgs /\ is_row_count_defect d = true)
     <-> Z.of_nat (len audit) <> row_count orders_manifest) /\
    (forall d, In d msgs -> is_row_count_defect d = true ->
       d = ("Row count mismatch: expected " ++ str_of_Z (row_count orders_manifest)
            ++ ", got " ++ str_of_nat (len audit))%string).
Proof.
  split; [reflexivity|].
  apply (row_count_defect init audit orders_manifest Daily). reflexivity.
Defined.

Lemma daily_created_boundary_witness :
  dates_parsed orders_stale = true /\
  has_column "IsCreated" orders_stale = true /\
  has_column "DateCreated" orders_stale = true /\
  exists valid msgs,
    validate_daily_file init orders_stale orders_manifest = Return (valid, msgs) /\
    In "Found 1 invalid IsCreated values"%string msgs.
Proof.
  split; [reflexivity|]. split; [reflexivity|]. split; [reflexivity|].
  destruct (daily_created_boundary init orders_stale orders_manifest)
    as [valid [msgs [Hrun [_ [_ Hone]]]]]; try reflexivity.
  exists valid, msgs. split; [exact Hrun|]. apply Hone. reflexivity.
Defined.

Lemma id_detection_witness :
  well_typed Full anonymous = true /\
  exists valid msgs,
    evaluate init anonymous orders_manifest Full = Return (valid, msgs) /\
    (In "No valid ID column found"%string msgs
     <-> forall name, In name id_columns -> ~ In name (columns anonymous)).
Proof.
  split; [reflexivity|].
  apply (id_detection init anonymous orders_manifest Full). reflexivity.
Defined.

Lemma outcome_invariant_witness :
  well_typed Daily orders_stale = true /\
  exists valid msgs,
    evaluate init orders_stale (mkManifestRow "orders" 5 "" "") Daily
    = Return (valid, msgs) /\
    msgs = ["Row count mismatch: expected 5, got 2";
            "Found 1 invalid IsCreated values"]%string.
Proof.
  split; [reflexivity|].
  destruct (proj2 (outcome_invariant init orders_stale
                     (mkManifestRow "orders" 5 "" "") Daily))
    as [valid [msgs [Hrun [_ [Hmsgs _]]]]]; [reflexivity|].
  exists valid, msgs. split; [exact Hrun|]. rewrite Hmsgs. reflexivity.
Defined.

Lemma no_match_path_raises_witness :
  len customers_straight = 2%nat /\
  first_pairing customers customers_straight = false /\
  last_pairing customers customers_straight = false /\
  compare_validation_files init customers customers_straight
  = Raise UnboundLocalError.
Proof.
  split; [reflexivity|]. split; [reflexivity|]. split; [reflexivity|].
  apply (no_match_path_raises init customers customers_straight); reflexivity.
Defined.



Lemma two_row_disjunctive_witness :
  len customers_last_only = 2%nat /\
  (first_pairing customers customers_last_only = true
   \/ last_pairing customers customers_last_only = true) /\
  compare_validation_files init customers customers_last_only
  = Return (true, "Validation file check passed"%string).
Proof.
  split; [reflexivity|]. split; [right; reflexivity|].
  apply (proj1 (two_row_disjunctive init customers customers_last_only eq_refl)).
  right. reflexivity.
Defined.

(** A first validation row with the values of the last raw row, and a second
    validation row with a missing field: the validation rows are float64,
    the raw rows int64, the call is not accepted. *)
Lemma two_row_disjunctive_counterexample :
  len readings_last_gap = 2%nat /\
  (exists rl v0,
     iloc readings (-1) = Return rl /\ iloc readings_last_gap 0 = Return v0 /\
     same_values rl v0 = true) /\
  compare_validation_files init readings readings_last_gap
  <> Return (true, "Validation file check passed"%string).
Proof.
  split; [reflexivity|]. split.
  - eexists. eexists. split; [reflexivity|]. split; reflexivity.
  - discriminate.
Qed.

Lemma single_validation_row_witness :
  len customers_single = 1%nat /\
  len customers <> 1%nat /\
  compare_validation_files init customers customers_single
  = Return (false,
            "Validation file should contain exactly 2 data rows (first and last), found 1 rows"%string).
Proof.
  split; [reflexivity|]. split; [discriminate|].
  apply (proj1 (single_validation_row init customers customers_single eq_refl)).
  discriminate.
Defined.

(** The scenarios of section 8 of the specification. *)
Example scenario_orders_pass :
  validate_daily_file init orders orders_manifest = Return (true, []).
Proof. reflexivity. Qed.

Example scenario_orders_stale :
  validate_daily_file init orders_stale orders_manifest
  = Return (false, ["Found 1 invalid IsCreated values"%string]).
Proof. reflexivity. Qed.

Example scenario_full_both_flags :
  validate_full_file init
    (mkDataFrame ["Id"; "IsCreated"; "IsModified"]%string
       [[Int 1; Int 1; Int 0]; [Int 2; Int 0; Int 1]; [Int 3; Int 1; Int 1]])
    (mkManifestRow "t" 3 "" "")
  = Return (false, ["Found 1 rows with IsCreated != 1";
                    "Found 2 rows with IsModified != 0"]%string).
Proof. reflexivity. Qed.

Example scenario_unparsed_dates_raise :
  validate_daily_file init
    (mkDataFrame ["Id"; "IsCreated"; "DateCreated"]%string
       [[Int 1; Int 1; Str "2024-12-02 19:00:00"]])
    (mkManifestRow "t" 1 "" "")
  = Raise TypeError.
Proof. reflexivity. Qed.

Example scenario_missing_date_compares_false :
  validate_daily_file init
    (mkDataFrame ["Id"; "IsCreated"; "DateCreated"]%string
       [[Int 1; Int 0; Timestamp (window_start init)]; [Int 2; Int 1; NaN]])
    orders_manifest
  = Return (false, ["Found 1 invalid IsCreated values"%string]).
Proof. reflexivity. Qed.

Example scenario_missing_dates_alone_raise :
  validate_daily_file init
    (mkDataFrame ["Id"; "IsCreated"; "DateCreated"]%string
       [[Int 1; Int 0; NaN]; [Int 2; Int 1; NaN]])
    orders_manifest
  = Raise TypeError.
Proof. reflexivity. Qed.

Example scenario_straight_order_raises :
  compare_validation_files init customers customers_straight
  = Raise UnboundLocalError.
Proof. reflexivity. Qed.

Example scenario_empty_raw_raises :
  compare_validation_files init (mkDataFrame ["Id"; "Name"]%string [])
    customers_straight
  = Raise IndexError.
Proof. reflexivity. Qed.


(** * Further properties of the rule engine *)

Lemma series_ge_comparable (df : DataFrame) (name : string) (ts : Z) :
  column_comparable (getitem df name) = true ->
  series_ge (getitem df name) ts
  = Return (map (fun row => at_or_after ts (field (columns df) name row)) (rows df)).
Proof.
  intros H. unfold series_ge. rewrite series_cmp_ts_spec, H.
  unfold getitem. rewrite map_map. f_equal. apply map_ext. intros row.
  unfold at_or_after. destruct (field (columns df) name row); try reflexivity.
  apply Z.geb_leb.
Qed.

Lemma series_lt_comparable (df : DataFrame) (name : string) (ts : Z) :
  column_comparable (getitem df name) = true ->
  series_lt (getitem df name) ts
  = Return (map (fun row => before ts (field (columns df) name row)) (rows df)).
Proof.
  intros H. unfold series_lt. rewrite series_cmp_ts_spec, H.
  unfold getitem. rewrite map_map. f_equal.
Qed.

(** The three date steps of daily mode, each on any column: it returns when
    the column it compares is comparable and raises otherwise. *)
Section DailyRun.

Variable self : DumpFileValidator.
Variable raw : DataFrame.

Lemma step_created_run (vr : list string) :
  (if has_column "IsCreated" raw && has_column "DateCreated" raw then
     created_mask <- series_ge (getitem raw "DateCreated") (window_start self) ;;
     Return
       (if negb (empty (select raw
                          (mask_and created_mask
                             (series_ne_int (getitem raw "IsCreated") 1))))
        then vr ++ [daily_created_message
                      (len (select raw
                              (mask_and created_mask
                                 (series_ne_int (getitem raw "IsCreated") 1))))]
        else vr)
   else Return vr)
  = if negb (has_column "IsCreated" raw && has_column "DateCreated" raw)
       || column_comparable (getitem raw "DateCreated")
    then Return (vr ++ rule_daily_created self raw)
    else Raise TypeError.
Proof.
  unfold rule_daily_created.
  destruct (has_column "IsCreated" raw) eqn:Hflag;
    destruct (has_column "DateCreated" raw) eqn:Hdate; simpl;
    try now rewrite app_nil_r.
  destruct (column_comparable (getitem raw "DateCreated")) eqn:Hp.
  - rewrite (series_ge_comparable _ _ _ Hp).
    simpl. rewrite series_ne_int_rows, mask_and_map, select_filter.
    now rewrite (aggregated_code raw _ _ _ _ Hflag).
  - unfold series_ge. now rewrite series_cmp_ts_spec, Hp.
Qed.

Lemma step_modified_run (vr : list string) :
  (if has_column "IsModified" raw && has_column "DateModified" raw then
     modified_mask <- series_ge (getitem raw "DateModified") (window_start self) ;;
     Return
       (if negb (empty (select raw
                          (mask_and modified_mask
                             (series_ne_int (getitem raw "IsModified") 1))))
        then vr ++ [daily_modified_message
                      (len (select raw
                              (mask_and modified_mask
                                 (series_ne_int (getitem raw "IsModified") 1))))]
        else vr)
   else Return vr)
  = if negb (has_column "IsModified" raw && has_column "DateModified" raw)
       || column_comparable (getitem raw "DateModified")
    then Return (vr ++ rule_daily_modified self raw)
    else Raise TypeError.
Proof.
  unfold rule_daily_modified.
  destruct (has_column "IsModified" raw) eqn:Hflag;
    destruct (has_column "DateModified" raw) eqn:Hdate; simpl;
    try now rewrite app_nil_r.
  destruct (column_comparable (getitem raw "DateModified")) eqn:Hp.
  - rewrite (series_ge_comparable _ _ _ Hp).
    simpl. rewrite series_ne_int_rows, mask_and_map, select_filter.
    now rewrite (aggregated_code raw _ _ _ _ Hflag).
  - unfold series_ge. now rewrite series_cmp_ts_spec, Hp.
Qed.

Lemma step_window_run (vr : list string) :
  (if has_column "DateCreated" raw && has_column "DateModified" raw then
     c_ge <- series_ge (getitem raw "DateCreated") (window_start self) ;;
     c_lt <- series_lt (getitem raw "DateCreated") (window_end self) ;;
     m_ge <- series_ge (getitem raw "DateModified") (window_start self) ;;
     m_lt <- series_lt (getitem raw "DateModified") (window_end self) ;;
     Return
       (if negb (empty (select raw
                          (mask_not (mask_or (mask_and c_ge c_lt)
                                             (mask_and m_ge m_lt)))))
        then vr ++ [window_message
                      (len (select raw
                              (mask_not (mask_or (mask_and c_ge c_lt)
                                                 (mask_and m_ge m_lt)))))]
        else vr)
   else Return vr)
  = if negb (has_column "DateCreated" raw && has_column "DateModified" raw)
       || (column_comparable (getitem raw "DateCreated")
           && column_comparable (getitem raw "DateModified"))
    then Return (vr ++ rule_window self raw)
    else Raise TypeError.
Proof.
  unfold rule_window.
  destruct (has_column "DateCreated" raw) eqn:Hc;
    destruct (has_column "DateModified" raw) eqn:Hm; simpl;
    try now rewrite app_nil_r.
  destruct (column_comparable (getitem raw "DateCreated")) eqn:Hpc.
  - destruct (column_comparable (getitem raw "DateModified")) eqn:Hpm.
    + rewrite !series_ge_comparable, !series_lt_comparable by assumption.
      simpl. rewrite !mask_and_map, mask_or_map, mask_not_map, select_filter.
      now rewrite (aggregated_code raw _ _ _ _ Hc).
    + rewrite series_ge_comparable, series_lt_comparable by assumption. simpl.
      unfold series_ge. now rewrite series_cmp_ts_spec, Hpm.
  - unfold series_ge. now rewrite series_cmp_ts_spec, Hpc.
Qed.

End DailyRun.

(** [validate_daily_file] on any frame: the defects of the rules when every
    compared column is comparable, [TypeError] otherwise. *)
Lemma daily_run (self : DumpFileValidator) (raw : DataFrame) (m : ManifestRow) :
  validate_daily_file self raw m
  = if daily_comparable raw
    then Return ((length (defects self raw m Daily) =? 0)%nat, defects self raw m Daily)
    else Raise TypeError.
Proof.
  unfold validate_daily_file, check_id_column.
  rewrite positive_filter. cbv beta iota zeta.
  rewrite step_created_run. unfold daily_comparable.
  destruct (negb (has_column "IsCreated" raw && has_column "DateCreated" raw)
            || column_comparable (getitem raw "DateCreated")); [|reflexivity].
  unfold bind at 1. rewrite step_modified_run.
  destruct (negb (has_column "IsModified" raw && has_column "DateModified" raw)
            || column_comparable (getitem raw "DateModified")); [|reflexivity].
  unfold bind at 1. rewrite step_window_run.
  destruct (negb (has_column "DateCreated" raw && has_column "DateModified" raw)
            || (column_comparable (getitem raw "DateCreated")
                && column_comparable (getitem raw "DateModified")));
    [|reflexivity].
  unfold bind. rewrite common_rules. unfold defects, mode_rules. simpl andb.
  now rewrite <- !app_assoc.
Qed.

Lemma modified_kind_modified (n : nat) :
  is_daily_modified_defect (daily_modified_message n) = true.
Proof. unfold is_daily_modified_defect, daily_modified_message. tail_matches. Qed.

Lemma modified_kind_created (n : nat) :
  is_daily_modified_defect (daily_created_message n) = false.
Proof. unfold is_daily_modified_defect, daily_created_message. tail_differs. Qed.

Lemma modified_kind_window (n : nat) :
  is_daily_modified_defect (window_message n) = false.
Proof. unfold is_daily_modified_defect, window_message. tail_differs. Qed.

Lemma daily_modified_defects (self : DumpFileValidator) (raw : DataFrame)
    (m : ManifestRow) :
  filter is_daily_modified_defect (defects self raw m Daily)
  = rule_daily_modified self raw.
Proof.
  unfold defects, mode_rules. rewrite !filter_app.
  rewrite filter_rule_row_count_drop by reflexivity.
  rewrite filter_rule_id_drop by reflexivity.
  unfold rule_daily_created, rule_daily_modified, rule_window.
  rewrite (filter_gated_drop _ _ _ _ modified_kind_created).
  rewrite (filter_gated_keep _ _ _ _ modified_kind_modified).
  rewrite (filter_gated_drop _ _ _ _ modified_kind_window).
  now rewrite !app_nil_r.
Qed.

Lemma dates_parsed_typed (raw : DataFrame) :
  dates_parsed raw = true -> daily_typed raw = true.
Proof.
  intros Hp. unfold daily_typed, column_parsed.
  destruct (has_column "DateCreated" raw) eqn:Hc;
    destruct (has_column "DateModified" raw) eqn:Hm;
    rewrite ?andb_false_r, ?andb_true_r; simpl;
    rewrite ?(dates_parsed_column raw "DateCreated" Hp (or_introl eq_refl) Hc),
            ?(dates_parsed_column raw "DateModified" Hp (or_intror eq_refl) Hm),
            ?orb_true_r; reflexivity.
Qed.

Lemma typed_comparable (raw : DataFrame) :
  daily_typed raw = true -> daily_comparable raw = true.
Proof.
  intros H. unfold daily_typed, column_parsed in H. unfold daily_comparable.
  destruct (forallb is_datetime (getitem raw "DateCreated")) eqn:Hc;
    destruct (forallb is_datetime (getitem raw "DateModified")) eqn:Hm;
    rewrite ?(parsed_comparable _ Hc), ?(parsed_comparable _ Hm);
    destruct (has_column "IsCreated" raw); destruct (has_column "DateCreated" raw);
    destruct (has_column "IsModified" raw); destruct (has_column "DateModified" raw);
    simpl in *; try discriminate; reflexivity.
Qed.

(** X1. Daily mode, step 4d: on a frame whose compared date columns are
    parsed, the messages contain exactly one defect
    "Found n invalid IsModified values" for the number n of records with
    [DateModified >= window_start] and [IsModified != 1] when both columns
    are present and n is positive, and none otherwise. *)
Theorem daily_modified_rule (self : DumpFileValidator) (raw : DataFrame)
    (m : ManifestRow) :
  daily_typed raw = true ->
  exists valid msgs,
    validate_daily_file self raw m = Return (valid, msgs) /\
    filter is_daily_modified_defect msgs
    = if has_column "IsModified" raw && has_column "DateModified" raw
      then aggregated daily_modified_message
             (violations (modified_violation self) raw)
      else [].
Proof.
  intros Ht. eexists. eexists. rewrite daily_run, (typed_comparable raw Ht).
  split; [reflexivity|]. apply daily_modified_defects.
Qed.

(** X2. The only exception of daily mode: [validate_daily_file] raises
    [TypeError] exactly when a date column that one of its steps compares
    cannot be compared with a timestamp: it holds an integer or a text, or
    it is a float64 column of missing values alone.  A missing value beside
    timestamps does not raise.  No other exception is raised, and frames
    parsed by the orchestrator are never in that case. *)
Theorem daily_type_errors (self : DumpFileValidator) (raw : DataFrame)
    (m : ManifestRow) :
  (validate_daily_file self raw m = Raise TypeError
   <-> daily_comparable raw = false) /\
  (forall e, validate_daily_file self raw m = Raise e -> e = TypeError) /\
  (dates_parsed raw = true ->
   exists outcome, validate_daily_file self raw m = Return outcome).
Proof.
  rewrite daily_run. split; [|split].
  - destruct (daily_comparable raw); split; intros H; try discriminate;
      reflexivity.
  - intros e. destruct (daily_comparable raw); intros H; [discriminate|].
    now inversion H.
  - intros Hp. rewrite (typed_comparable raw (dates_parsed_typed raw Hp)).
    eexists. reflexivity.
Qed.

Lemma evaluate_returns (self : DumpFileValidator) (raw : DataFrame)
    (m : ManifestRow) (mode : Mode) (valid : bool) (msgs : list string) :
  evaluate self raw m mode = Return (valid, msgs) ->
  msgs = defects self raw m mode /\ valid = (length msgs =? 0)%nat.
Proof.
  destruct mode; simpl.
  - rewrite daily_run. destruct (daily_comparable raw); [|discriminate].
    intros H. inversion H. now split.
  - rewrite full_outcome. intros H. inversion H. now split.
Qed.

(** X3. A valid outcome vouches for the two common rules: whenever [evaluate]
    returns valid, in either mode, [len(raw)] equals the manifest's
    [row_count] and one of the identifier names is a column. *)
Theorem valid_needs_count_and_id (self : DumpFileValidator) (raw : DataFrame)
    (m : ManifestRow) (mode : Mode) (msgs : list string) :
  evaluate self raw m mode = Return (true, msgs) ->
  Z.of_nat (len raw) = row_count m /\
  exists name, In name id_columns /\ In name (columns raw).
Proof.
  intros H. apply evaluate_returns in H. destruct H as [Hmsgs Hvalid].
  symmetry in Hvalid. apply is_nil_length in Hvalid. subst msgs.
  unfold defects in Hvalid. apply app_eq_nil in Hvalid.
  destruct Hvalid as [Hcount Hrest]. apply app_eq_nil in Hrest.
  destruct Hrest as [Hid _]. split.
  - unfold rule_row_count in Hcount.
    destruct (Z.eqb_spec (Z.of_nat (len raw)) (row_count m));
      [assumption | discriminate].
  - unfold rule_id in Hid.
    destruct (existsb (fun name => has_column name raw) id_columns) eqn:Hex;
      [|discriminate].
    apply existsb_exists in Hex. destruct Hex as [name [Hname Hcol]].
    exists name. split; [assumption | now apply has_column_In].
Qed.

Lemma aggregated_length (message : nat -> string) (n : nat) :
  (length (aggregated message n) <= 1)%nat.
Proof. unfold aggregated. destruct (n =? 0)%nat; simpl; lia. Qed.

Lemma gated_length (gate : bool) (message : nat -> string) (n : nat) :
  (length (if gate then aggregated message n else []) <= 1)%nat.
Proof.
  destruct gate; [apply aggregated_length | simpl; lia].
Qed.

Lemma defects_bounded (self : DumpFileValidator) (raw : DataFrame)
    (m : ManifestRow) (mode : Mode) :
  (length (defects self raw m mode)
   <= match mode with Daily => 5 | Full => 4 end)%nat.
Proof.
  assert (Hc : (length (rule_row_count raw m) <= 1)%nat)
    by (unfold rule_row_count; destruct (_ =? _); simpl; lia).
  assert (Hi : (length (rule_id raw) <= 1)%nat)
    by (unfold rule_id; destruct (existsb _ _); simpl; lia).
  unfold defects. rewrite !length_app.
  destruct mode; unfold mode_rules; rewrite !length_app.
  - pose proof (gated_length
                  (has_column "IsCreated" raw && has_column "DateCreated" raw)
                  daily_created_message (violations (created_violation self) raw)).
    pose proof (gated_length
                  (has_column "IsModified" raw && has_column "DateModified" raw)
                  daily_modified_message (violations (modified_violation self) raw)).
    pose proof (gated_length
                  (has_column "DateCreated" raw && has_column "DateModified" raw)
                  window_message (violations (outside_window self) raw)).
    unfold rule_daily_created, rule_daily_modified, rule_window. lia.
  - pose proof (gated_length (has_column "IsCreated" raw)
                  full_created_message (violations not_created raw)).
    pose proof (gated_length (has_column "IsModified" raw)
                  full_modified_message (violations is_modified raw)).
    unfold rule_full_created, rule_full_modified. lia.
Qed.

(** X4. Bounded report: whatever the number of records, [evaluate] returns at
    most five messages in daily mode and at most four in full mode. *)
Theorem messages_bounded (self : DumpFileValidator) (raw : DataFrame)
    (m : ManifestRow) (mode : Mode) (valid : bool) (msgs : list string) :
  evaluate self raw m mode = Return (valid, msgs) ->
  (length msgs <= match mode with Daily => 5 | Full => 4 end)%nat.
Proof.
  intros H. apply evaluate_returns in H. destruct H as [-> _].
  apply defects_bounded.
Qed.

Lemma empty_frame_rules (self : DumpFileValidator) (raw : DataFrame) (mode : Mode) :
  rows raw = [] -> mode_rules self raw mode = [].
Proof.
  intros H.
  assert (Hv : forall p, violations p raw = 0%nat)
    by (intros p; unfold violations; now rewrite H).
  destruct mode; unfold mode_rules, rule_daily_created, rule_daily_modified,
    rule_window, rule_full_created, rule_full_modified; rewrite !Hv;
    repeat match goal with |- context [if ?c then _ else _] => destruct c end;
    reflexivity.
Qed.

Lemma empty_frame_typed (raw : DataFrame) : rows raw = [] -> daily_typed raw = true.
Proof.
  intros H. unfold daily_typed, column_parsed, getitem. rewrite H. simpl.
  now rewrite !orb_true_r.
Qed.

(** X5. A table without records: in both modes [evaluate] returns, whatever
    the columns are and whether or not dates were parsed; the row-count defect
    (reported unless the manifest expects 0 rows) and the identifier defect
    are the only ones it can report. *)
Theorem empty_frame (self : DumpFileValidator) (raw : DataFrame)
    (m : ManifestRow) (mode : Mode) :
  rows raw = [] ->
  exists msgs,
    evaluate self raw m mode = Return ((length msgs =? 0)%nat, msgs) /\
    msgs = (if 0 =? row_count m then []
            else [("Row count mismatch: expected " ++ str_of_Z (row_count m)
                   ++ ", got 0")%string])
           ++ (if existsb (fun name => has_column name raw) id_columns then []
               else ["No valid ID column found"%string]).
Proof.
  intros H. exists (defects self raw m mode). split.
  - destruct mode; simpl.
    + now rewrite daily_run, (typed_comparable raw (empty_frame_typed raw H)).
    + apply full_outcome.
  - unfold defects. rewrite (empty_frame_rules self raw mode H), app_nil_r.
    unfold rule_row_count, rule_id, len. rewrite H. reflexivity.
Qed.

Lemma has_column_header (name : string) (df df' : DataFrame) :
  columns df = columns df' -> has_column name df = has_column name df'.
Proof. unfold has_column. now intros ->. Qed.

(** X6. Full mode reads the header, the number of records and the two flag
    columns, nothing else: two frames that agree on these get the same
    outcome, whatever their other cells and whatever the validator's window. *)
Theorem full_reads_flags_only (self self' : DumpFileValidator)
    (raw raw' : DataFrame) (m : ManifestRow) :
  columns raw = columns raw' ->
  len raw = len raw' ->
  getitem raw "IsCreated" = getitem raw' "IsCreated" ->
  getitem raw "IsModified" = getitem raw' "IsModified" ->
  validate_full_file self raw m = validate_full_file self' raw' m.
Proof.
  intros Hcols Hlen Hc Hm. rewrite !full_outcome.
  assert (Hd : defects self raw m Full = defects self' raw' m Full).
  { assert (Hid : rule_id raw = rule_id raw').
    { unfold rule_id, id_columns. simpl.
      now rewrite !(fun name => has_column_header name raw raw' Hcols). }
    unfold defects, mode_rules, rule_row_count, rule_full_created,
      rule_full_modified, violations, not_created, is_modified.
    rewrite !column_count, Hlen, Hc, Hm, Hid.
    rewrite (has_column_header "IsCreated" raw raw' Hcols).
    now rewrite (has_column_header "IsModified" raw raw' Hcols). }
  unfold defects in Hd. now rewrite Hd.
Qed.

Lemma ne_int_true (k : Z) (c : cell) : c <> Int k -> ne_int k c = true.
Proof.
  destruct c; simpl; try reflexivity. intros H.
  destruct (Z.eqb_spec z k); [subst; contradiction | reflexivity].
Qed.

(** X7. Step 4c at the edges: with [IsCreated] and [DateCreated] present and
    the compared columns comparable, the messages contain the defect
    "Found n invalid IsCreated values", once, for the number n of violating
    records when n is positive, and no such defect when n is zero.  A record
    without creation date (NaT, or NaN in an unparsed column) or created
    before [window_start] adds nothing to n, whatever its flag; a record
    created at or after [window_start], with no upper bound, adds one as
    soon as its [IsCreated] cell is anything but the integer 1, a missing
    flag included, and the defect is then reported. *)
Theorem daily_created_edges (self : DumpFileValidator) (raw : DataFrame)
    (m : ManifestRow) :
  daily_comparable raw = true ->
  has_column "IsCreated" raw = true ->
  has_column "DateCreated" raw = true ->
  exists valid msgs,
    validate_daily_file self raw m = Return (valid, msgs) /\
    let count := fun l => length (filter (created_violation self (columns raw)) l) in
    let n := count (rows raw) in
    filter is_daily_created_defect msgs = aggregated daily_created_message n /\
    forall pre row post,
      rows raw = pre ++ row :: post ->
      (field (columns raw) "DateCreated" row = NaT
       \/ field (columns raw) "DateCreated" row = NaN ->
       n = (count pre + count post)%nat) /\
      (forall t, field (columns raw) "DateCreated" row = Timestamp t ->
                 t < window_start self ->
                 n = (count pre + count post)%nat) /\
      (forall t, field (columns raw) "DateCreated" row = Timestamp t ->
                 window_start self <= t ->
                 field (columns raw) "IsCreated" row <> Int 1 ->
                 n = (count pre + 1 + count post)%nat /\
                 In (daily_created_message n) msgs).
Proof.
  intros Ht Hflag Hdate. eexists. eexists. rewrite daily_run, Ht.
  split; [reflexivity|]. cbv zeta.
  assert (Hkind : filter is_daily_created_defect (defects self raw m Daily)
                  = aggregated daily_created_message
                      (length (filter (created_violation self (columns raw))
                                      (rows raw)))).
  { rewrite daily_created_defects. unfold rule_daily_created.
    now rewrite Hflag, Hdate. }
  split; [exact Hkind|].
  intros pre row post Hrows.
  assert (Hn : length (filter (created_violation self (columns raw)) (rows raw))
               = (length (filter (created_violation self (columns raw)) pre)
                  + (if created_violation self (columns raw) row then 1 else 0)
                  + length (filter (created_violation self (columns raw)) post))%nat)
    by (rewrite Hrows; apply violations_split).
  split; [|split].
  - intros [Hmiss | Hmiss]; rewrite Hn; unfold created_violation at 2;
      rewrite Hmiss; simpl; lia.
  - intros t Hts Hlt. rewrite Hn. unfold created_violation at 2. rewrite Hts.
    simpl.
    replace (window_start self <=? t) with false
      by (symmetry; apply Z.leb_gt; lia).
    simpl. lia.
  - intros t Hts Hle Hne.
    assert (Hrow : created_violation self (columns raw) row = true).
    { unfold created_violation. rewrite Hts. simpl.
      replace (window_start self <=? t) with true
        by (symmetry; apply Z.leb_le; lia).
      now rewrite (ne_int_true 1 _ Hne). }
    rewrite Hrow in Hn. split; [exact Hn|].
    assert (Hin : In (daily_created_message
                        (length (filter (created_violation self (columns raw))
                                        (rows raw))))
                     (filter is_daily_created_defect (defects self raw m Daily))).
    { rewrite Hkind. unfold aggregated.
      destruct (Nat.eqb_spec
                  (length (filter (created_violation self (columns raw)) (rows raw)))
                  0); [lia | now left]. }
    now apply filter_In in Hin.
Qed.

(** * Further properties of the header checks *)

Lemma has_column_same_names (name : string) (df df' : DataFrame) :
  (forall c, In c (columns df) <-> In c (columns df')) ->
  has_column name df = has_column name df'.
Proof.
  intros H. destruct (has_column name df') eqn:H'.
  - apply has_column_In, H, has_column_In, H'.
  - destruct (has_column name df) eqn:H0; [|reflexivity].
    apply has_column_In, H, has_column_In in H0. congruence.
Qed.

(** X8. The answer of [check_id_column] is coherent and sound: the flag is
    true exactly when a name is returned, a returned name is one of the four
    identifier names and a column of the frame, and the answer depends on
    which names are columns, not on the order of the columns in the file. *)
Theorem id_column_answer (df df' : DataFrame) :
  (fst (check_id_column df) = true <-> snd (check_id_column df) <> None) /\
  (forall name, snd (check_id_column df) = Some name ->
                In name id_columns /\ In name (columns df)) /\
  ((forall name, In name (columns df) <-> In name (columns df')) ->
   check_id_column df' = check_id_column df).
Proof.
  rewrite !check_id_column_first. cbn [fst snd]. split; [|split].
  - unfold id_columns. simpl.
    repeat match goal with |- context [has_column ?c df] =>
      destruct (has_column c df) end; simpl;
      split; intros H; try reflexivity; try discriminate; congruence.
  - intros name H. apply find_some in H. destruct H as [Hin Hcol].
    split; [assumption | now apply has_column_In].
  - intros H. unfold id_columns. simpl.
    now rewrite !(fun name => has_column_same_names name df df' H).
Qed.


(** * Further properties of the boundary comparator *)

Lemma one_row (df : DataFrame) :
  len df = 1%nat ->
  exists r, rows df = [r] /\ iloc df 0 = Return (series_of_row df r).
Proof.
  unfold len. destruct (rows df) as [|r [|r' l]] eqn:Hrows; simpl;
    try discriminate.
  intros _. exists r. split; [reflexivity|].
  apply (iloc_at df 0). now rewrite Hrows.
Qed.

(** [compare_validation_files] branch by branch. *)
Lemma compare_cases (self : DumpFileValidator) (raw validation : DataFrame) :
  compare_validation_files self raw validation
  = if (len validation =? 0)%nat then
      Return (true, "Validation file is empty, no changes made"%string)
    else if (len raw =? 1)%nat && (len validation =? 1)%nat then
      Return (if single_pairing raw validation
              then (true, "Validation check passed"%string)
              else (false, "Validation and raw row mismatch"%string))
    else if negb (len validation =? 2)%nat then
      Return (false, wrong_count_message (len validation))
    else if (len raw =? 0)%nat then Raise IndexError
    else if first_pairing raw validation || last_pairing raw validation
         then Return passed
         else Raise UnboundLocalError.
Proof.
  destruct (Nat.eq_dec (len validation) 2) as [H2 | H2].
  - rewrite (two_row_branch self raw validation H2), H2. simpl.
    now rewrite andb_false_r.
  - unfold compare_validation_files.
    destruct (len validation =? 0)%nat; [reflexivity|].
    destruct (Nat.eqb_spec (len raw) 1) as [Hr | Hr]; simpl.
    + destruct (Nat.eqb_spec (len validation) 1) as [Hv | Hv]; simpl.
      * destruct (one_row raw Hr) as [r [_ Hir]].
        destruct (one_row validation Hv) as [v [_ Hiv]].
        unfold single_pairing. rewrite Hir, Hiv. simpl.
        destruct (equals _ _); reflexivity.
      * apply Nat.eqb_neq in H2. now rewrite H2.
    + apply Nat.eqb_neq in H2. now rewrite H2.
Qed.

Lemma pairing_needs_rows (raw validation : DataFrame) :
  first_pairing raw validation = true \/ last_pairing raw validation = true ->
  (len raw =? 0)%nat = false.
Proof.
  intros Hp. destruct (len raw =? 0)%nat eqn:Hraw; [|reflexivity].
  apply Nat.eqb_eq in Hraw.
  assert (Hrows : rows raw = [])
    by (unfold len in Hraw; now destruct (rows raw)).
  unfold first_pairing, last_pairing in Hp.
  rewrite !(iloc_empty raw _ Hrows) in Hp. destruct Hp; discriminate.
Qed.

(** X10. When the comparator accepts: [compare_validation_files] returns
    valid in three cases only, each with its own message: an empty validation
    frame; one raw row and one validation row that are equal; two validation
    rows of which the second equals the first raw row or the first equals the
    last raw row. *)
Theorem accepts_iff (self : DumpFileValidator) (raw validation : DataFrame)
    (message : string) :
  compare_validation_files self raw validation = Return (true, message)
  <-> (len validation = 0%nat
       /\ message = "Validation file is empty, no changes made"%string)
      \/ (len raw = 1%nat /\ len validation = 1%nat
          /\ single_pairing raw validation = true
          /\ message = "Validation check passed"%string)
      \/ (len validation = 2%nat
          /\ (first_pairing raw validation = true
              \/ last_pairing raw validation = true)
          /\ message = "Validation file check passed"%string).
Proof.
  rewrite compare_cases.
  assert (Hneed : first_pairing raw validation = true
                  \/ last_pairing raw validation = true -> len raw <> 0%nat)
    by (intros Hp; apply Nat.eqb_neq; exact (pairing_needs_rows raw validation Hp)).
  destruct (single_pairing raw validation);
    destruct (first_pairing raw validation);
    destruct (last_pairing raw validation);
    destruct (len validation) as [|[|[|k]]];
    destruct (len raw) as [|[|j]]; simpl;
    (split;
     [ intros H; try discriminate; inversion H; subst; clear H;
       intuition (try discriminate; try lia; auto)
     | intros H; intuition (subst; try discriminate; try lia; try reflexivity) ]).
Qed.

(** X11. When the comparator rejects: [compare_validation_files] returns
    invalid in two cases only: one raw row and one validation row that
    differ, with "Validation and raw row mismatch"; and a validation frame
    of one row against a raw frame that has not exactly one row, or of three
    rows or more, with the message that names the number of validation rows.
    A two-row validation frame is never answered with invalid. *)
Theorem rejects_iff (self : DumpFileValidator) (raw validation : DataFrame)
    (message : string) :
  compare_validation_files self raw validation = Return (false, message)
  <-> (len raw = 1%nat /\ len validation = 1%nat
       /\ single_pairing raw validation = false
       /\ message = "Validation and raw row mismatch"%string)
      \/ (((len validation = 1%nat /\ len raw <> 1%nat)
           \/ (2 < len validation)%nat)
          /\ message
             = ("Validation file should contain exactly 2 data rows (first and last), found "
                ++ str_of_nat (len validation) ++ " rows")%string).
Proof.
  rewrite compare_cases. fold (wrong_count_message (len validation)).
  destruct (single_pairing raw validation);
    destruct (first_pairing raw validation || last_pairing raw validation);
    destruct (len validation) as [|[|[|k]]];
    destruct (len raw) as [|[|j]]; cbn [Nat.eqb andb negb];
    (split;
     [ intros H; try discriminate; inversion H; subst; clear H;
       intuition (try discriminate; try lia; auto)
     | intros H; intuition (subst; try discriminate; try lia; try reflexivity) ]).
Qed.

(** X12. When the comparator raises: only against a two-row validation
    frame, with [IndexError] when the raw frame has no rows and with
    [UnboundLocalError] when it has rows and neither pairing holds; in
    particular an empty, a one-row or a longer validation frame never makes
    it raise, even against an empty raw frame. *)
Theorem raises_iff (self : DumpFileValidator) (raw validation : DataFrame)
    (e : exn) :
  compare_validation_files self raw validation = Raise e
  <-> len validation = 2%nat
      /\ ((len raw = 0%nat /\ e = IndexError)
          \/ (len raw <> 0%nat
              /\ first_pairing raw validation = false
              /\ last_pairing raw validation = false
              /\ e = UnboundLocalError)).
Proof.
  rewrite compare_cases.
  destruct (single_pairing raw validation);
    destruct (first_pairing raw validation);
    destruct (last_pairing raw validation);
    destruct (len validation) as [|[|[|k]]];
    destruct (len raw) as [|[|j]]; cbn [Nat.eqb andb negb orb];
    (split;
     [ intros H; try discriminate; inversion H; subst; clear H;
       intuition (try discriminate; try lia; auto)
     | intros H; intuition (subst; try discriminate; try lia; try reflexivity) ]).
Qed.

(** X13. The comparator reads the raw frame through its two ends only: two
    raw frames of two rows or more whose first rows are the same series
    (labels, type and values) and whose last rows are the same series get the
    same answer against any validation frame.  The rows in between matter
    through the type they give to the rows, and through nothing else. *)
Theorem middle_rows_ignored (self self' : DumpFileValidator)
    (raw raw' validation : DataFrame) :
  (2 <= len raw)%nat ->
  (2 <= len raw')%nat ->
  iloc raw 0 = iloc raw' 0 ->
  iloc raw (-1) = iloc raw' (-1) ->
  compare_validation_files self raw validation
  = compare_validation_files self' raw' validation.
Proof.
  intros Hlen Hlen' Hfirst Hlast. rewrite !compare_cases.
  unfold first_pairing, last_pairing. rewrite Hfirst, Hlast.
  destruct (len raw) as [|[|k]]; try lia.
  destruct (len raw') as [|[|k']]; try lia.
  reflexivity.
Qed.

(** X14. The one-row branch is symmetric: with one row on each side, swapping
    the raw and the validation frame does not change the answer. *)
Theorem single_row_symmetric (self : DumpFileValidator) (raw validation : DataFrame) :
  len raw = 1%nat ->
  len validation = 1%nat ->
  compare_validation_files self raw validation
  = compare_validation_files self validation raw.
Proof.
  intros Hr Hv. rewrite !compare_cases, Hr, Hv. simpl.
  destruct (one_row raw Hr) as [r [_ Hir]].
  destruct (one_row validation Hv) as [v [_ Hiv]].
  unfold single_pairing. rewrite Hir, Hiv.
  now rewrite (equals_sym (series_of_row raw r)).
Qed.


(** * The raw stage of the orchestrator *)

Section Assignment.

Lemma nth_set_nth (i j : nat) (v : cell) (row : list cell) :
  nth j (set_nth i v row) NaN = if (j =? i)%nat then v else nth j row NaN.
Proof.
  revert j row. induction i as [|i IH]; intros [|j] [|c rest]; simpl;
    try reflexivity.
  - now destruct j.
  - rewrite IH. destruct (j =? i)%nat; [reflexivity | now destruct j].
  - apply IH.
Qed.

Lemma position_distinct (name other : string) (cols : list string) :
  existsb (String.eqb name) cols = true ->
  other <> name ->
  position other cols <> position name cols.
Proof.
  intros Hin Hne. induction cols as [|c cols IH]; simpl in *; [discriminate|].
  destruct (String.eqb_spec name c) as [-> | Hnc].
  - destruct (String.eqb_spec other c); [contradiction | discriminate].
  - simpl in Hin. destruct (String.eqb_spec other c); [discriminate|].
    intros H. injection H as H. now apply IH.
Qed.

Variable df : DataFrame.
Variable name : string.
Variable col : list cell.
Hypothesis aligned : length col = len df.

Lemma setitem_len : len (setitem df name col) = len df.
Proof.
  unfold setitem, len in *. simpl. rewrite length_map, length_combine. lia.
Qed.

Lemma getitem_setitem (other : string) :
  getitem (setitem df name col) other
  = if (position other (columns df) =? position name (columns df))%nat
    then col else getitem df other.
Proof.
  unfold getitem, setitem, field, len in *. simpl. rewrite map_map.
  revert col aligned. induction (rows df) as [|row l IH]; intros [|v vs] Hlen;
    simpl in *; try discriminate.
  - now destruct (_ =? _)%nat.
  - rewrite nth_set_nth. injection Hlen as Hlen. specialize (IH vs Hlen).
    destruct (position other (columns df) =? position name (columns df))%nat;
      now rewrite IH.
Qed.

End Assignment.

Lemma parse_column_spec (to_datetime : list cell -> option (list cell))
    (df df' : DataFrame) (col : string) :
  datetime_contract to_datetime ->
  parse_column to_datetime df col = Some df' ->
  columns df' = columns df /\ len df' = len df /\
  (has_column col df = true -> column_parsed col df' = true) /\
  (forall other, other <> col -> getitem df' other = getitem df other).
Proof.
  intros Hc. unfold parse_column.
  destruct (has_column col df) eqn:Hcol.
  - destruct (to_datetime (getitem df col)) as [parsed|] eqn:Htd; [|discriminate].
    intros H. injection H as <-. destruct (Hc _ _ Htd) as [Hlen Hdt].
    assert (Hal : length parsed = len df)
      by (rewrite Hlen; unfold getitem, len; apply length_map).
    split; [reflexivity|]. split; [now apply setitem_len|]. split.
    + intros _. unfold column_parsed. rewrite (getitem_setitem df col parsed Hal).
      now rewrite Nat.eqb_refl.
    + intros other Hne. rewrite (getitem_setitem df col parsed Hal).
      destruct (Nat.eqb_spec (position other (columns df)) (position col (columns df)))
        as [Heq | _]; [|reflexivity].
      exfalso. revert Heq. now apply position_distinct.
  - intros H. injection H as <-. repeat split; try reflexivity. discriminate.
Qed.

Lemma parse_dates_steps (to_datetime : list cell -> option (list cell))
    (df df' : DataFrame) :
  parse_dates to_datetime df = Some df' ->
  exists d, parse_column to_datetime df "DateCreated" = Some d
            /\ parse_column to_datetime d "DateModified" = Some df'.
Proof.
  unfold parse_dates, date_columns. simpl.
  destruct (parse_column to_datetime df "DateCreated") as [d|]; [|discriminate].
  intros H. now exists d.
Qed.

Lemma parse_dates_spec (to_datetime : list cell -> option (list cell))
    (df df' : DataFrame) :
  datetime_contract to_datetime ->
  parse_dates to_datetime df = Some df' ->
  columns df' = columns df /\ len df' = len df /\ dates_parsed df' = true /\
  (forall other, other <> "DateCreated"%string -> other <> "DateModified"%string ->
                 getitem df' other = getitem df other).
Proof.
  intros Hc H. destruct (parse_dates_steps _ _ _ H) as [d [H1 H2]].
  destruct (parse_column_spec _ _ _ _ Hc H1) as [Hcols1 [Hlen1 [Hp1 Ho1]]].
  destruct (parse_column_spec _ _ _ _ Hc H2) as [Hcols2 [Hlen2 [Hp2 Ho2]]].
  split; [congruence|]. split; [congruence|]. split.
  - unfold dates_parsed. simpl. rewrite andb_true_r.
    rewrite (has_column_header "DateCreated" df' d Hcols2).
    rewrite (has_column_header "DateModified" df' d Hcols2).
    apply andb_true_iff. split.
    + destruct (has_column "DateCreated" d) eqn:Hd; [|reflexivity]. simpl.
      rewrite (Ho2 "DateCreated"%string) by discriminate.
      apply Hp1. now rewrite <- (has_column_header "DateCreated" d df Hcols1).
    + destruct (has_column "DateModified" d) eqn:Hd; [|reflexivity]. simpl.
      now apply Hp2.
  - intros other Hn1 Hn2. rewrite (Ho2 other Hn2). now apply Ho1.
Qed.

(** X15. Date parsing prepares the frame the rule engine is specified on:
    when [pd.to_datetime] keeps its promise and the loop of lines 172 to 174
    completes, the frame has the same header and the same number of records,
    every date column it has holds timestamps and NaT only, and every other
    column is unchanged.  The loop fails exactly when [pd.to_datetime] raises
    on one of the date columns of the table as loaded. *)
Theorem parse_dates_prepares (to_datetime : list cell -> option (list cell))
    (df : DataFrame) :
  datetime_contract to_datetime ->
  (forall df',
     parse_dates to_datetime df = Some df' ->
     columns df' = columns df /\ len df' = len df /\ dates_parsed df' = true /\
     (forall other, other <> "DateCreated"%string -> other <> "DateModified"%string ->
                    getitem df' other = getitem df other)) /\
  (parse_dates to_datetime df = None
   <-> exists name, In name date_columns /\ has_column name df = true
                    /\ to_datetime (getitem df name) = None).
Proof.
  intros Hc. split; [intros df'; now apply parse_dates_spec|].
  unfold parse_dates, date_columns. simpl.
  destruct (parse_column to_datetime df "DateCreated") as [d|] eqn:H1.
  - destruct (parse_column_spec _ _ _ _ Hc H1) as [Hcols [_ [_ Hother]]].
    assert (Hd : parse_column to_datetime d "DateModified"
                 = if has_column "DateModified" df
                   then match to_datetime (getitem df "DateModified") with
                        | Some parsed => Some (setitem d "DateModified" parsed)
                        | None => None
                        end
                   else Some d).
    { unfold parse_column.
      rewrite (has_column_header "DateModified" d df Hcols).
      now rewrite (Hother "DateModified"%string) by discriminate. }
    rewrite Hd. unfold parse_column in H1.
    destruct (has_column "DateModified" df) eqn:Hm.
    + destruct (to_datetime (getitem df "DateModified")) eqn:Htd; split.
      * discriminate.
      * intros [name [[<- | [<- | []]] [Hcol Hnone]]].
        -- rewrite Hcol, Hnone in H1. discriminate.
        -- congruence.
      * intros _. exists "DateModified"%string. simpl. auto.
      * reflexivity.
    + split; [discriminate|].
      intros [name [[<- | [<- | []]] [Hcol Hnone]]].
      * rewrite Hcol, Hnone in H1. discriminate.
      * congruence.
  - split; [|reflexivity]. intros _. exists "DateCreated"%string.
    unfold parse_column in H1.
    destruct (has_column "DateCreated" df); [|discriminate].
    destruct (to_datetime (getitem df "DateCreated")); [discriminate|].
    simpl. auto.
Qed.

Lemma rule_id_header (df df' : DataFrame) :
  columns df' = columns df -> rule_id df' = rule_id df.
Proof.
  intros H. unfold rule_id, id_columns. simpl.
  now rewrite !(fun name => has_column_header name df' df H).
Qed.

(** X16. The rule engine cannot fail in the raw stage: when [pd.to_datetime]
    keeps its promise, the stage ends in the exception handler only if the
    date parsing raised; otherwise the validator of the mode returns, its
    flag is true exactly when it has no message, and its row-count and
    identifier defects are those of the table as loaded. *)
Theorem raw_stage_outcome (self : DumpFileValidator)
    (to_datetime : list cell -> option (list cell)) (mode : string)
    (raw_df : DataFrame) (row : ManifestRow) :
  datetime_contract to_datetime ->
  (raw_stage self to_datetime mode raw_df row = None
   <-> parse_dates to_datetime raw_df = None) /\
  (forall valid msgs,
     raw_stage self to_datetime mode raw_df row = Some (valid, msgs) ->
     (valid = true <-> msgs = []) /\
     exists rest, msgs = rule_row_count raw_df row ++ rule_id raw_df ++ rest).
Proof.
  intros Hc. unfold raw_stage.
  destruct (parse_dates to_datetime raw_df) as [df'|] eqn:Hparse.
  - destruct (parse_dates_spec _ _ _ Hc Hparse) as [Hcols [Hlen [Hp _]]].
    assert (Hcommon : forall md,
               defects self df' row md
               = rule_row_count raw_df row ++ rule_id raw_df ++ mode_rules self df' md).
    { intros md. unfold defects, rule_row_count. rewrite Hlen.
      now rewrite (rule_id_header raw_df df' Hcols). }
    destruct (String.eqb mode "daily").
    + rewrite daily_run, (typed_comparable df' (dates_parsed_typed df' Hp)).
      split.
      * split; discriminate.
      * intros valid msgs H. injection H as <- <-. split.
        -- apply is_nil_length.
        -- exists (mode_rules self df' Daily). apply Hcommon.
    + rewrite full_outcome. fold (defects self df' row Full). split.
      * split; discriminate.
      * intros valid msgs H. injection H as <- <-. split.
        -- apply is_nil_length.
        -- exists (mode_rules self df' Full). apply Hcommon.
  - split; [split; reflexivity|]. discriminate.
Qed.

Lemma strict_datetime_contract : datetime_contract strict_datetime.
Proof.
  intros col parsed. unfold strict_datetime.
  destruct (forallb _ col); [|discriminate].
  intros H. injection H as <-. split; [apply length_map|].
  apply forallb_forall. intros c Hin. apply in_map_iff in Hin.
  destruct Hin as [c0 [<- _]]. now destruct c0.
Qed.

(** X17. The report of the raw stage agrees with the verdict: for an outcome
    the rule engine returns, the report is the single line
    "Raw file validation: PASSED" when there is no defect, and otherwise
    "Raw file validation: FAILED" followed by one line for each defect, at
    least one and at most five. *)
Theorem raw_report_lines (self : DumpFileValidator) (raw : DataFrame)
    (m : ManifestRow) (mode : Mode) (valid : bool) (msgs : list string) :
  evaluate self raw m mode = Return (valid, msgs) ->
  (msgs = [] /\
   raw_report (valid, msgs) = ["Raw file validation: PASSED"%string])
  \/ (msgs <> [] /\ (length msgs <= 5)%nat /\
      raw_report (valid, msgs)
      = "Raw file validation: FAILED"%string
        :: map (fun msg => ("- " ++ msg)%string) msgs).
Proof.
  intros H. pose proof (evaluate_returns _ _ _ _ _ _ H) as [Hmsgs Hvalid].
  destruct msgs as [|d msgs'].
  - left. split; [reflexivity|]. now rewrite Hvalid.
  - right. split; [discriminate|]. split.
    + pose proof (defects_bounded self raw m mode) as Hb.
      rewrite <- Hmsgs in Hb. destruct mode; lia.
    + now rewrite Hvalid.
Qed.

(** * The further properties at the sample tables *)

Lemma daily_modified_rule_witness :
  daily_typed changes = true /\
  exists valid msgs,
    validate_daily_file init changes orders_manifest = Return (valid, msgs) /\
    filter is_daily_modified_defect msgs
    = if has_column "IsModified" changes && has_column "DateModified" changes
      then aggregated daily_modified_message
             (violations (modified_violation init) changes)
      else [].
Proof.
  split; [reflexivity|].
  apply (daily_modified_rule init changes orders_manifest). reflexivity.
Defined.

Lemma daily_type_errors_witness :
  daily_comparable orders_text_dates = false /\
  validate_daily_file init orders_text_dates orders_manifest = Raise TypeError.
Proof.
  split; [reflexivity|].
  apply (proj1 (daily_type_errors init orders_text_dates orders_manifest)).
  reflexivity.
Defined.

Lemma valid_needs_count_and_id_witness :
  evaluate init orders orders_manifest Daily = Return (true, []) /\
  Z.of_nat (len orders) = row_count orders_manifest /\
  exists name, In name id_columns /\ In name (columns orders).
Proof.
  split; [reflexivity|].
  apply (valid_needs_count_and_id init orders orders_manifest Daily []).
  reflexivity.
Defined.

Lemma messages_bounded_witness :
  evaluate init orders_stale orders_manifest Daily
  = Return (false, ["Found 1 invalid IsCreated values"%string]) /\
  (length ["Found 1 invalid IsCreated values"%string] <= 5)%nat.
Proof.
  split; [reflexivity|].
  apply (messages_bounded init orders_stale orders_manifest Daily false).
  reflexivity.
Defined.

Lemma empty_frame_witness :
  rows no_orders = [] /\
  exists msgs,
    evaluate init no_orders orders_manifest Daily
    = Return ((length msgs =? 0)%nat, msgs) /\
    msgs = (if 0 =? row_count orders_manifest then []
            else [("Row count mismatch: expected "
                   ++ str_of_Z (row_count orders_manifest) ++ ", got 0")%string])
           ++ (if existsb (fun name => has_column name no_orders) id_columns then []
               else ["No valid ID column found"%string]).
Proof.
  split; [reflexivity|].
  apply (empty_frame init no_orders orders_manifest Daily). reflexivity.
Defined.

Lemma full_reads_flags_only_witness :
  columns orders = columns orders_other_ids /\
  len orders = len orders_other_ids /\
  getitem orders "IsCreated" = getitem orders_other_ids "IsCreated" /\
  getitem orders "IsModified" = getitem orders_other_ids "IsModified" /\
  validate_full_file init orders orders_manifest
  = validate_full_file init orders_other_ids orders_manifest.
Proof.
  repeat (split; [reflexivity|]).
  apply (full_reads_flags_only init init orders orders_other_ids orders_manifest);
    reflexivity.
Defined.

Lemma daily_created_edges_witness :
  daily_comparable orders_edges = true /\
  has_column "IsCreated" orders_edges = true /\
  has_column "DateCreated" orders_edges = true /\
  exists valid msgs,
    validate_daily_file init orders_edges orders_manifest = Return (valid, msgs) /\
    filter is_daily_created_defect msgs
    = ["Found 1 invalid IsCreated values"%string] /\
    In "Found 1 invalid IsCreated values"%string msgs.
Proof.
  repeat (split; [reflexivity|]).
  destruct (daily_created_edges init orders_edges orders_manifest)
    as [valid [msgs [Hrun [Hkind Hrows]]]]; try reflexivity.
  exists valid, msgs. split; [exact Hrun|]. split; [exact Hkind|].
  destruct (Hrows [[Int 1; Int 0; NaT];
                   [Int 2; Int 0; Timestamp (window_start init - 1)]]
                  [Int 3; NaN; Timestamp (window_end init + 5)] [] eq_refl)
    as [_ [_ Hcount]].
  apply (Hcount (window_end init + 5) eq_refl); [discriminate | discriminate].
Defined.

Lemma id_column_answer_witness :
  snd (check_id_column customers) = Some "Id"%string /\
  In "Id"%string id_columns /\ In "Id"%string (columns customers).
Proof.
  split; [reflexivity|].
  apply (proj1 (proj2 (id_column_answer customers customers))). reflexivity.
Defined.


Lemma accepts_iff_witness :
  len customers_last_only = 2%nat /\
  last_pairing customers customers_last_only = true /\
  compare_validation_files init customers customers_last_only
  = Return (true, "Validation file check passed"%string).
Proof.
  split; [reflexivity|]. split; [reflexivity|].
  apply (proj2 (accepts_iff init customers customers_last_only _)).
  right. right. split; [reflexivity|]. split; [right; reflexivity | reflexivity].
Defined.

Lemma rejects_iff_witness :
  len customers_single_other = 1%nat /\
  len customers_single = 1%nat /\
  single_pairing customers_single_other customers_single = false /\
  compare_validation_files init customers_single_other customers_single
  = Return (false, "Validation and raw row mismatch"%string).
Proof.
  repeat (split; [reflexivity|]).
  apply (proj2 (rejects_iff init customers_single_other customers_single _)).
  left. repeat split; reflexivity.
Defined.

Lemma raises_iff_witness :
  compare_validation_files init no_orders customers_straight = Raise IndexError /\
  len customers_straight = 2%nat /\ len no_orders = 0%nat.
Proof.
  split; [reflexivity|].
  destruct (proj1 (raises_iff init no_orders customers_straight IndexError) eq_refl)
    as [H2 [[H0 _] | [H0 _]]].
  - now split.
  - exfalso. now apply H0.
Defined.

Lemma middle_rows_ignored_witness :
  (2 <= len customers)%nat /\ (2 <= len customers_longer)%nat /\
  iloc customers 0 = iloc customers_longer 0 /\
  iloc customers (-1) = iloc customers_longer (-1) /\
  compare_validation_files init customers customers_last_only
  = compare_validation_files init customers_longer customers_last_only.
Proof.
  assert (H : (2 <= len customers)%nat) by (vm_compute; lia).
  assert (H' : (2 <= len customers_longer)%nat) by (vm_compute; lia).
  split; [exact H|]. split; [exact H'|].
  split; [reflexivity|]. split; [reflexivity|].
  apply (middle_rows_ignored init init customers customers_longer
           customers_last_only H H'); reflexivity.
Defined.

Lemma single_row_symmetric_witness :
  len customers_single_other = 1%nat /\
  len customers_single = 1%nat /\
  compare_validation_files init customers_single_other customers_single
  = compare_validation_files init customers_single customers_single_other.
Proof.
  repeat (split; [reflexivity|]).
  apply (single_row_symmetric init customers_single_other customers_single);
    reflexivity.
Defined.

Lemma parse_dates_prepares_witness :
  datetime_contract strict_datetime /\
  parse_dates strict_datetime orders_loaded
  = Some (mkDataFrame ["Id"; "IsCreated"; "DateCreated"]%string
            [[Int 1; Int 0; Timestamp (window_start init)];
             [Int 2; Int 1; NaT]]) /\
  dates_parsed (mkDataFrame ["Id"; "IsCreated"; "DateCreated"]%string
                  [[Int 1; Int 0; Timestamp (window_start init)];
                   [Int 2; Int 1; NaT]]) = true.
Proof.
  split; [exact strict_datetime_contract|]. split; [reflexivity|].
  apply (proj1 (parse_dates_prepares strict_datetime orders_loaded
                  strict_datetime_contract) _ eq_refl).
Defined.

Lemma raw_stage_outcome_witness :
  datetime_contract strict_datetime /\
  raw_stage init strict_datetime "daily" orders_loaded orders_manifest
  = Some (false, ["Found 1 invalid IsCreated values"%string]) /\
  (false = true <-> ["Found 1 invalid IsCreated values"%string] = []).
Proof.
  split; [exact strict_datetime_contract|]. split; [reflexivity|].
  apply (proj2 (raw_stage_outcome init strict_datetime "daily" orders_loaded
                  orders_manifest strict_datetime_contract)
               false ["Found 1 invalid IsCreated values"%string]).
  reflexivity.
Defined.

Lemma raw_report_lines_witness :
  evaluate init orders_stale orders_manifest Daily
  = Return (false, ["Found 1 invalid IsCreated values"%string]) /\
  raw_report (false, ["Found 1 invalid IsCreated values"%string])
  = ["Raw file validation: FAILED"; "- Found 1 invalid IsCreated values"]%string.
Proof.
  split; [reflexivity|].
  destruct (raw_report_lines init orders_stale orders_manifest Daily false
              ["Found 1 invalid IsCreated values"%string] eq_refl)
    as [[Hnil _] | [_ [_ Hrep]]]; [discriminate | exact Hrep].
Defined.
